(** * agri-fabric: the claim-log HTTP facade and the wallet set-up script

    A shallow embedding of [log-server/blockchain-http-server.js] and
    [log-server/setup-wallets.js].  JavaScript values are an inductive type,
    objects are finite maps keyed by property name, and every function of the
    two scripts is a computation in a small state-and-exception monad whose
    state holds the process memory, the world outside the process (file
    system, identity store, ledger network), the wall clock and the trace of
    what the process printed and which ledger operations it invoked. *)

From Stdlib Require Import ZArith String Ascii List SpecFloat DecimalString DecimalPos Lia.
From stdpp Require Import base option list gmap strings fin_maps.

Set Warnings "-register-all".

(** ** JavaScript values *)

(** A number is an IEEE-754 double, a string is kept as its UTF-8 text, an
    object is a finite map from property names to values.  [JUndefined] is what
    reading a property that is not there gives. *)
Inductive jsval : Type :=
  | JUndefined
  | JNull
  | JBool (b : bool)
  | JNum (x : spec_float)
  | JStr (s : string)
  | JArr (l : list jsval)
  | JObj (o : gmap string jsval).

Abbreviation jsobj := (gmap string jsval).

(** [o.k] on an object that came out of [JSON.parse]. *)
Definition prop (o : jsobj) (k : string) : jsval :=
  default JUndefined (o !! k).

(** ToBoolean: [undefined], [null], [false], [+0], [-0], [NaN] and the empty
    string are falsy, every other value is truthy. *)
Definition truthy (v : jsval) : bool :=
  match v with
  | JUndefined | JNull => false
  | JBool b => b
  | JNum (S754_zero _) | JNum S754_nan => false
  | JNum _ => true
  | JStr EmptyString => false
  | JStr _ => true
  | JArr _ | JObj _ => true
  end.

(** An [Error] object, as far as the scripts look at it: its [message]. *)
Record exn : Type := Error { message : string }.

(** ** Numbers and dates as text *)

Section Dates.
#[local] Open Scope Z_scope.

(** [n.toString()] for an integer-valued number. *)
Definition Number_toString (n : Z) : string :=
  NilZero.string_of_int (Z.to_int n).

(** Decimal digits of [n], left-padded with zeros to [width] characters. *)
Fixpoint pad_digits (width : nat) (n : Z) : string :=
  match width with
  | O => EmptyString
  | S w => pad_digits w (n / 10) +:+ String (ascii_of_N (Z.to_N (48 + n mod 10))) EmptyString
  end.

(** Days since 1970-01-01 to the proleptic Gregorian (year, month, day). *)
Definition civil_from_days (days : Z) : Z * Z * Z :=
  let z := days + 719468 in
  let era := z / 146097 in
  let doe := z - era * 146097 in
  let yoe := (doe - doe / 1460 + doe / 36524 - doe / 146096) / 365 in
  let doy := doe - (365 * yoe + yoe / 4 - yoe / 100) in
  let mp := (5 * doy + 2) / 153 in
  let d := doy - (153 * mp + 2) / 5 + 1 in
  let m := if mp <? 10 then mp + 3 else mp - 9 in
  let y := yoe + era * 400 + (if m <=? 2 then 1 else 0) in
  (y, m, d).

(** [new Date(t).toISOString()] for [t] milliseconds since the epoch:
    [YYYY-MM-DDTHH:mm:ss.sssZ], with the signed six-digit year outside
    0..9999. *)
Definition toISOString (t : Z) : string :=
  let '(y, m, d) := civil_from_days (t / 86400000) in
  let year :=
    if (0 <=? y) && (y <=? 9999) then pad_digits 4 y
    else (if y <? 0 then "-" else "+") +:+ pad_digits 6 (Z.abs y) in
  year +:+ "-" +:+ pad_digits 2 m +:+ "-" +:+ pad_digits 2 d +:+ "T"
    +:+ pad_digits 2 ((t / 3600000) mod 24) +:+ ":"
    +:+ pad_digits 2 ((t / 60000) mod 60) +:+ ":"
    +:+ pad_digits 2 ((t / 1000) mod 60) +:+ "."
    +:+ pad_digits 3 (t mod 1000) +:+ "Z".

(** A numeric string: decimal digits, at least one, after an optional minus
    sign. *)
Definition is_digit (c : ascii) : bool :=
  (48 <=? Z.of_nat (nat_of_ascii c)) && (Z.of_nat (nat_of_ascii c) <=? 57).

Fixpoint all_digits (s : string) : bool :=
  match s with
  | EmptyString => true
  | String c rest => is_digit c && all_digits rest
  end.

Definition digits (s : string) : bool :=
  match s with
  | EmptyString => false
  | _ => all_digits s
  end.

Definition numeric_string (s : string) : bool :=
  match s with
  | String c rest => if bool_decide (c = "-"%char) then digits rest else digits s
  | EmptyString => false
  end.

End Dates.

(** ** File-system paths *)

(** A path is the list of its segments below the root (POSIX paths, as in
    the deployment the scripts describe). *)
Definition path : Type := list string.

(** The parts of [s] between occurrences of [sep], as [s.split(sep)] gives
    them. *)
Fixpoint split_on (sep : ascii) (s : string) : list string :=
  match s with
  | EmptyString => [EmptyString]
  | String c rest =>
      if bool_decide (c = sep) then EmptyString :: split_on sep rest
      else match split_on sep rest with
           | part :: parts => String c part :: parts
           | [] => [String c EmptyString]
           end
  end.

(** One step of normalisation: [..] drops the last segment (and stays at the
    root), [.] and the empty segment change nothing, any other segment is
    appended. *)
Definition path_step (p : path) (seg : string) : path :=
  if bool_decide (seg = "..") then removelast p
  else if bool_decide (seg = ".") || bool_decide (seg = "") then p
  else p ++ [seg].

(** Normalising one argument of [path.join] or [path.resolve] onto [p]: the
    argument is cut at its separators. *)
Definition path_add (p : path) (arg : string) : path :=
  fold_left path_step (split_on "/" arg) p.

(** [path.join(p, ...args)] for an absolute [p]. *)
Definition path_join (p : path) (args : list string) : path :=
  fold_left path_add args p.

(** An argument that starts with the separator is an absolute path. *)
Definition is_absolute (arg : string) : bool :=
  match arg with
  | String c _ => bool_decide (c = "/"%char)
  | EmptyString => false
  end.

(** [path.resolve(p, ...args)] for an absolute [p]: an absolute argument
    starts again from the root. *)
Definition path_resolve (p : path) (args : list string) : path :=
  fold_left (λ acc arg, path_add (if is_absolute arg then [] else acc) arg) args p.

(** A name that is one path segment: it holds no separator and is neither
    empty nor [.] nor [..]. *)
Fixpoint no_separator (s : string) : bool :=
  match s with
  | EmptyString => true
  | String c rest => negb (bool_decide (c = "/"%char)) && no_separator rest
  end.

Definition plain_segment (s : string) : bool :=
  no_separator s
  && negb (bool_decide (s = "")) && negb (bool_decide (s = "."))
  && negb (bool_decide (s = "..")).

(** [s.split('.')[0]]: the text before the first dot. *)
Fixpoint split_dot_first (s : string) : string :=
  match s with
  | EmptyString => EmptyString
  | String c rest =>
      if bool_decide (c = "."%char) then EmptyString
      else String c (split_dot_first rest)
  end.

(** ** What the scripts import *)

(** The identity record [setup-wallets.js] builds and the wallet stores. *)
Record credentials : Type := Credentials {
  certificate : string;
  privateKey : string;
}.

Record x509_identity : Type := Identity {
  identity_credentials : credentials;
  mspId : string;
  identity_type : string;
}.

(** The options object handed to [gateway.connect]. *)
Record connectionOptions (W : Type) : Type := ConnectionOptions {
  wallet : W;
  identity : string;
  discovery_enabled : bool;
  discovery_asLocalhost : bool;
  eventHandlerOptions_commitTimeout : Z;
  queryHandlerOptions_timeout : Z;
}.
Arguments ConnectionOptions {W}.

(** The Node.js runtime and the [fabric-network] SDK, as the scripts use them.
    [Ext] is the state of everything outside the process: the file system, the
    identity store and the ledger network.  A call returns [inl e] when it
    throws [e] and [inr a] when it returns [a]; a call that can change the
    outside world returns the new [Ext] as well. *)
Class Platform : Type := {
  Ext : Type;
  Gateway : Type;
  Network : Type;
  Contract : Type;
  Wallet : Type;
  __dirname : path;
  fs_readFileSync : path → Ext → exn + list Byte.byte;
  fs_readdirSync : path → Ext → exn + list string;
  fs_existsSync : path → Ext → bool;
  fs_rmSync : path → Ext → (exn + unit) * Ext;
  Wallets_newFileSystemWallet : path → Ext → (exn + Wallet) * Ext;
  wallet_get : Wallet → string → Ext → (exn + option x509_identity) * Ext;
  wallet_put : Wallet → string → x509_identity → Ext → (exn + unit) * Ext;
  new_Gateway : Ext → Gateway * Ext;
  gateway_connect : Gateway → jsval → connectionOptions Wallet → Ext → (exn + unit) * Ext;
  gateway_getNetwork : Gateway → string → Ext → (exn + Network) * Ext;
  network_getContract : Network → string → Ext → (exn + Contract) * Ext;
  gateway_disconnect : Gateway → Ext → (exn + unit) * Ext;
  contract_submitTransaction :
    Contract → string → list jsval → Ext → (exn + list Byte.byte) * Ext;
  contract_evaluateTransaction :
    Contract → string → list jsval → Ext → (exn + list Byte.byte) * Ext;
  JSON_parse : string → exn + jsval;
  Buffer_toString : list Byte.byte → string;
  (* decoding a buffer as UTF-8 gives the empty string for the empty buffer
     only: every byte decodes to at least one character *)
  Buffer_toString_empty : ∀ b, Buffer_toString b = "" ↔ b = [];
}.

(** [walletPath] in both scripts: the identity store of an organisation. *)
Definition walletPath_of `{Platform} (orgName : string) : path :=
  path_join __dirname ["wallet"; orgName].

(** ** The process: memory, outside world, clock and trace *)

(** How a computation ends: it returns, it throws, or the process exits. *)
Inductive result (A : Type) : Type :=
  | Ok (a : A)
  | Throw (e : exn)
  | Exit (code : Z).
Arguments Ok {A}.
Arguments Throw {A}.
Arguments Exit {A}.

(** One argument of a [console.log] or [console.error] call.  [LLen v] is the
    text of [v.length] inside a template literal. *)
Inductive logarg : Type :=
  | LStr (s : string)
  | LVal (v : jsval)
  | LErr (e : exn)
  | LLen (v : jsval).

(** What the process does that can be seen from outside, over the gateway,
    contract and wallet handles of the platform. *)
Inductive event (G C W : Type) : Type :=
  | ConsoleLog (args : list logarg)
  | ConsoleError (args : list logarg)
  | SubmitTransaction (c : C) (functionName : string) (args : list jsval)
  | EvaluateTransaction (c : C) (functionName : string) (args : list jsval)
  | Disconnect (g : G)
  | WalletPut (w : W) (label : string) (i : x509_identity)
  | ProcessExit (code : Z).
Arguments ConsoleLog {G C W}.
Arguments ConsoleError {G C W}.
Arguments SubmitTransaction {G C W}.
Arguments EvaluateTransaction {G C W}.
Arguments Disconnect {G C W}.
Arguments WalletPut {G C W}.
Arguments ProcessExit {G C W}.

(** [mem] is the script's module-level state, [ext] the outside world,
    [clock n] what the [n]-th reading of the wall clock returns (milliseconds
    since the epoch), [reads] how many readings were taken, [out] the events
    so far, oldest first. *)
Record World (X Ev H : Type) : Type := mkWorld {
  mem : H;
  ext : X;
  clock : nat → Z;
  reads : nat;
  out : list Ev;
}.
Arguments mkWorld {X Ev H}.
Arguments mem {X Ev H}.
Arguments ext {X Ev H}.
Arguments clock {X Ev H}.
Arguments reads {X Ev H}.
Arguments out {X Ev H}.

(** The events and the worlds of a given platform. *)
Abbreviation Event := (event Gateway Contract Wallet).
Abbreviation Process H := (World Ext Event H).

Section Process.
Context `{P : Platform}.

Definition M (H A : Type) : Type := Process H → result A * Process H.

#[export] Instance M_ret {H} : MRet (M H) := λ A a w, (Ok a, w).

#[export] Instance M_bind {H} : MBind (M H) := λ A B f m w,
  match m w with
  | (Ok a, w') => f a w'
  | (Throw e, w') => (Throw e, w')
  | (Exit code, w') => (Exit code, w')
  end.

#[export] Instance M_fmap {H} : FMap (M H) := λ A B f m w,
  match m w with
  | (Ok a, w') => (Ok (f a), w')
  | (Throw e, w') => (Throw e, w')
  | (Exit code, w') => (Exit code, w')
  end.

(** [throw e] *)
Definition throw {H A} (e : exn) : M H A := λ w, (Throw e, w).

(** [try { body } catch (error) { handler }] *)
Definition try_catch {H A} (body : M H A) (handler : exn → M H A) : M H A := λ w,
  match body w with
  | (Throw e, w') => handler e w'
  | r => r
  end.

Definition get_mem {H} : M H H := λ w, (Ok (mem w), w).

Definition modify_mem {H} (f : H → H) : M H unit := λ w,
  (Ok tt, mkWorld (f (mem w)) (ext w) (clock w) (reads w) (out w)).

Definition emit {H} (ev : Event) : M H unit := λ w,
  (Ok tt, mkWorld (mem w) (ext w) (clock w) (reads w) (out w ++ [ev])).

Definition console_log {H} (args : list logarg) : M H unit := emit (ConsoleLog args).
Definition console_error {H} (args : list logarg) : M H unit := emit (ConsoleError args).

(** A call that only reads the outside world. *)
Definition ext_read {H A} (f : Ext → exn + A) : M H A := λ w,
  match f (ext w) with
  | inl e => (Throw e, w)
  | inr a => (Ok a, w)
  end.

(** A call that can change the outside world. *)
Definition ext_call {H A} (f : Ext → (exn + A) * Ext) : M H A := λ w,
  let '(r, e') := f (ext w) in
  let w' := mkWorld (mem w) e' (clock w) (reads w) (out w) in
  match r with
  | inl e => (Throw e, w')
  | inr a => (Ok a, w')
  end.

(** A pure library call that can throw. *)
Definition lift_exn {H A} (r : exn + A) : M H A := λ w,
  match r with
  | inl e => (Throw e, w)
  | inr a => (Ok a, w)
  end.

(** [Date.now()] *)
Definition Date_now {H} : M H Z := λ w,
  (Ok (clock w (reads w)), mkWorld (mem w) (ext w) (clock w) (S (reads w)) (out w)).

(** [new Date().toISOString()] *)
Definition new_Date_toISOString {H} : M H string :=
  t ← Date_now; mret (toISOString t).

(** [process.exit(code)] *)
Definition process_exit {H A} (code : Z) : M H A := λ w,
  (Exit code, mkWorld (mem w) (ext w) (clock w) (reads w) (out w ++ [ProcessExit code])).

End Process.

(** ** log-server/blockchain-http-server.js *)

Module Server.

(** One entry of [orgConnections]: [{ gateway, contract }], each a handle or
    [null]. *)
Record conn_of (G C : Type) : Type := Conn {
  gateway : option G;
  contract : option C;
}.
Arguments Conn {G C}.
Arguments gateway {G C}.
Arguments contract {G C}.

(** The module-level state: the [orgConnections] object and the [claimsLogs]
    array. *)
Record server_of (G C : Type) : Type := mkServer {
  orgConnections : gmap string (conn_of G C);
  claimsLogs : list jsobj;
}.
Arguments mkServer {G C}.
Arguments orgConnections {G C}.
Arguments claimsLogs {G C}.

Abbreviation conn := (conn_of Gateway Contract).
Abbreviation server := (server_of Gateway Contract).

Section Server.
Context `{P : Platform}.

Definition PORT : Z := 3002.
Definition ORG1_NAME : string := "org1.example.com".
Definition ORG2_NAME : string := "org2.example.com".
Definition CHANNEL_NAME : string := "mychannel".
Definition CONTRACT_NAME : string := "logcc".

(** What a handler sends: [res.status(code).json(body)]. *)
Record response : Type := Response {
  status : Z;
  body : jsval;
}.

(** [orgConnections[orgName] && orgConnections[orgName].contract]: the
    contract handle when it is truthy.  A name that is not a key of
    [orgConnections] gives no handle (a property inherited from
    [Object.prototype] has no [contract] either). *)
Definition contract_of (s : server) (orgName : string) : option Contract :=
  orgConnections s !! orgName ≫= contract.

(** [orgConnections[orgName] && orgConnections[orgName].gateway] *)
Definition gateway_of (s : server) (orgName : string) : option Gateway :=
  orgConnections s !! orgName ≫= gateway.

(** [ccpPath]: the connection profile of the organisation under the test
    network. *)
Definition ccpPath_of (orgName : string) : path :=
  path_resolve __dirname
    [".."; "fabric-samples"; "test-network"; "organizations"; "peerOrganizations";
     orgName; "connection-" +:+ split_dot_first orgName +:+ ".json"].

(** The [try] block of [initializeFabricForOrg]. *)
Definition connect_steps (orgName : string) : M server conn :=
  gateway ← ext_call (λ e, let '(g, e') := new_Gateway e in (inr g, e'));
  let ccpPath := ccpPath_of orgName in
  ccpBytes ← ext_read (fs_readFileSync ccpPath);
  ccp ← lift_exn (JSON_parse (Buffer_toString ccpBytes));
  let walletPath := walletPath_of orgName in
  wallet ← ext_call (Wallets_newFileSystemWallet walletPath);
  identity ← ext_call (wallet_get wallet "admin");
  (if identity is None
   then throw (Error ("Admin identity not found in wallet for " +:+ orgName))
   else mret tt);;
  let connectionOptions :=
    ConnectionOptions wallet "admin" false true 100 60 in
  ext_call (gateway_connect gateway ccp connectionOptions);;
  network ← ext_call (gateway_getNetwork gateway CHANNEL_NAME);
  contract ← ext_call (network_getContract network CONTRACT_NAME);
  console_log [LStr ("✅ Connected to Fabric for " +:+ orgName +:+ "!")];;
  mret (Conn (Some gateway) (Some contract)).

Definition initializeFabricForOrg (orgName : string) : M server conn :=
  try_catch (connect_steps orgName)
    (λ error,
      console_error
        [LStr ("❌ Failed to connect to Fabric for " +:+ orgName +:+ ":");
         LStr (message error)];;
      mret (Conn None None)).

(** [orgConnections[orgName] = c] *)
Definition set_connection (orgName : string) (c : conn) : M server unit :=
  modify_mem (λ s, mkServer (<[orgName := c]> (orgConnections s)) (claimsLogs s)).

(** [Object.values(orgConnections).some(conn => conn.contract !== null)] *)
Definition hasFabricConnection (s : server) : bool :=
  existsb (λ kc : string * conn, bool_decide (is_Some (contract kc.2)))
    (map_to_list (orgConnections s)).

Definition initializeFabric : M server unit :=
  c1 ← initializeFabricForOrg ORG1_NAME;
  set_connection ORG1_NAME c1;;
  c2 ← initializeFabricForOrg ORG2_NAME;
  set_connection ORG2_NAME c2;;
  s ← get_mem;
  if negb (hasFabricConnection s)
  then console_log
         [LStr "⚠️ Falling back to in-memory storage due to Fabric connection failure"]
  else mret tt.

Definition submitTransaction (orgName functionName : string) (args : list jsval)
  : M server (list Byte.byte) :=
  s ← get_mem;
  match contract_of s orgName with
  | None => throw (Error ("Contract for " +:+ orgName +:+ " not available"))
  | Some contract =>
      emit (SubmitTransaction contract functionName args);;
      ext_call (contract_submitTransaction contract functionName args)
  end.

Definition evaluateTransaction (orgName functionName : string) (args : list jsval)
  : M server (list Byte.byte) :=
  s ← get_mem;
  match contract_of s orgName with
  | None => throw (Error ("Contract for " +:+ orgName +:+ " not available"))
  | Some contract =>
      emit (EvaluateTransaction contract functionName args);;
      ext_call (contract_evaluateTransaction contract functionName args)
  end.

(** Reading [logs.length]: a [TypeError] on [null] and [undefined]. *)
Definition read_length (logs : jsval) : M server logarg :=
  match logs with
  | JNull => throw (Error "Cannot read properties of null (reading 'length')")
  | JUndefined => throw (Error "Cannot read properties of undefined (reading 'length')")
  | _ => mret (LLen logs)
  end.

(** [app.get('/api/claims-logs/:org', ...)] *)
Definition get_claims_logs (orgName : string) : M server response :=
  try_catch
    (console_log
       [LStr ("📋 Fetching claims logs for " +:+ orgName +:+ " from blockchain...")];;
     s ← get_mem;
     if contract_of s orgName is Some _ then
       console_log
         [LStr ("🔍 Querying blockchain for all claim logs using " +:+ orgName
                +:+ " credentials...")];;
       result ← evaluateTransaction orgName "QueryAllClaimLogs" [];
       logs ← lift_exn (JSON_parse (Buffer_toString result));
       len ← read_length logs;
       console_log
         [LStr "✅ Retrieved "; len;
          LStr (" claim logs from blockchain via " +:+ orgName)];;
       mret (Response 200 logs)
     else
       console_log [LStr "📋 Fetching claims logs from local storage..."];;
       s ← get_mem;
       mret (Response 200 (JArr (JObj <$> claimsLogs s))))
    (λ error,
      console_error [LStr "❌ Error fetching claims logs:"; LErr error];;
      mret (Response 500
              (JObj {[ "error" := JStr "Failed to fetch claims logs";
                       "details" := JStr (message error) ]}))).

(** [v || new Date().toISOString()] *)
Definition or_now (v : jsval) : M server jsval :=
  if truthy v then mret v else JStr <$> new_Date_toISOString.

(** The test of the first [if] of the POST handler. *)
Definition missing_required (claimLog : jsobj) : bool :=
  negb (truthy (prop claimLog "claimId"))
  || negb (truthy (prop claimLog "farmerName"))
  || negb (truthy (prop claimLog "cropType"))
  || negb (truthy (prop claimLog "status")).

(** The array literal of the 400 response. *)
Definition required_fields : list string :=
  ["claimId"; "farmerName"; "cropType"; "status"].

Definition missing_fields_body : jsval :=
  JObj {[ "error" := JStr "Missing required fields";
          "required" := JArr (JStr <$> required_fields) ]}.

(** [app.post('/api/claims-logs/:org', ...)]; [claimLog] is [req.body], the
    object [express.json()] parsed.  (An array body has none of the named
    properties and takes the 400 branch as the empty object does.) *)
Definition post_claims_logs (orgName : string) (claimLog : jsobj) : M server response :=
  try_catch
    (console_log
       [LStr ("📝 Received claim log for " +:+ orgName +:+ ":"); LVal (JObj claimLog)];;
     if missing_required claimLog then
       mret (Response 400 missing_fields_body)
     else
       s ← get_mem;
       if contract_of s orgName is Some _ then
         console_log
           [LStr ("📝 Adding claim log to blockchain using " +:+ orgName
                  +:+ " credentials...")];;
         timestamp ← or_now (prop claimLog "timestamp");
         result ← submitTransaction orgName "AddClaimLog"
                    [prop claimLog "claimId"; prop claimLog "farmerName";
                     prop claimLog "cropType"; timestamp; prop claimLog "status"];
         response ← (if bool_decide (Buffer_toString result = "")
                     then mret (JObj ∅)
                     else lift_exn (JSON_parse (Buffer_toString result)));
         console_log
           [LStr ("✅ Successfully added claim log to blockchain via " +:+ orgName)];;
         mret (Response 200 response)
       else
         console_log [LStr "📝 Adding claim log to local storage..."];;
         now ← Date_now;
         let claimLog := <["id" := JStr (Number_toString now)]> claimLog in
         timestamp ← or_now (prop claimLog "timestamp");
         let claimLog := <["timestamp" := timestamp]> claimLog in
         createdAt ← or_now (prop claimLog "createdAt");
         let claimLog := <["createdAt" := createdAt]> claimLog in
         modify_mem (λ s, mkServer (orgConnections s) (claimsLogs s ++ [claimLog]));;
         console_log [LStr "✅ Successfully added claim log to local storage"];;
         mret (Response 200 (JObj claimLog)))
    (λ error,
      console_error [LStr "❌ Error adding claim log:"; LErr error];;
      mret (Response 500
              (JObj {[ "error" := JStr "Failed to add claim log";
                       "details" := JStr (message error) ]}))).

(** The POST handler on the [req.body] Express hands it: the object
    [express.json()] parsed, or [undefined] (here [None]) when no JSON body
    was parsed and the framework leaves [req.body] unset.  Reading
    [claimLog.claimId] on [undefined] throws inside the [try]. *)
Definition post_request (orgName : string) (body : option jsobj) : M server response :=
  match body with
  | Some claimLog => post_claims_logs orgName claimLog
  | None =>
      try_catch
        (console_log
           [LStr ("📝 Received claim log for " +:+ orgName +:+ ":"); LVal JUndefined];;
         throw (Error "Cannot read properties of undefined (reading 'claimId')"))
        (λ error,
          console_error [LStr "❌ Error adding claim log:"; LErr error];;
          mret (Response 500
                  (JObj {[ "error" := JStr "Failed to add claim log";
                           "details" := JStr (message error) ]})))
  end.

(** [app.get('/health', ...)] *)
Definition health : M server response :=
  s ← get_mem;
  timestamp ← new_Date_toISOString;
  mret (Response 200
          (JObj {[ "status" := JStr "OK";
                   "fabricConnectedOrg1" :=
                     JBool (bool_decide (is_Some (contract_of s ORG1_NAME)));
                   "fabricConnectedOrg2" :=
                     JBool (bool_decide (is_Some (contract_of s ORG2_NAME)));
                   "timestamp" := JStr timestamp ]})).

(** The callback of [app.listen(PORT, ...)]. *)
Definition on_listen : M server unit :=
  console_log [LStr ("🚀 Blockchain HTTP Server running on port " +:+ Number_toString PORT)];;
  console_log [LStr "🔌 Initializing connections to Hyperledger Fabric..."];;
  initializeFabric.

(** The line feed that opens the shutdown message. *)
Definition LF : string := String (ascii_of_nat 10) EmptyString.

(** [process.on('SIGINT', ...)] *)
Definition on_SIGINT : M server unit :=
  console_log [LStr (LF +:+ "🛑 Shutting down server...")];;
  s ← get_mem;
  (if gateway_of s ORG1_NAME is Some g
   then emit (Disconnect g);; ext_call (gateway_disconnect g)
   else mret tt);;
  s ← get_mem;
  (if gateway_of s ORG2_NAME is Some g
   then emit (Disconnect g);; ext_call (gateway_disconnect g)
   else mret tt);;
  process_exit 0.

(** The ledger and gateway operations among the events. *)
Definition is_ledger_call (ev : Event) : bool :=
  match ev with
  | SubmitTransaction _ _ _ | EvaluateTransaction _ _ _ | Disconnect _ => true
  | _ => false
  end.

Definition ledger_calls (evs : list Event) : list Event :=
  List.filter is_ledger_call evs.

(** A connection entry is a whole handle or none at all. *)
Definition whole_or_none (c : conn) : Prop :=
  c = Conn None None ∨ ∃ g k, c = Conn (Some g) (Some k).

End Server.
End Server.

(** ** log-server/setup-wallets.js *)

Module SetupWallets.
Section SetupWallets.
Context `{P : Platform}.

(** The character that opens and closes the quoted word of Node's message. *)
Definition double_quote : string := String (ascii_of_nat 34) EmptyString.

(** [path.join(keyPath, keyFile)] where [keyFile] is [entries[0]]: a
    [TypeError] when the directory listing is empty and [keyFile] is
    [undefined]. *)
Definition join_keyFile (keyPath : path) (keyFile : option string) : M unit path :=
  match keyFile with
  | None =>
      throw (Error ("The " +:+ double_quote +:+ "path" +:+ double_quote
                    +:+ " argument must be of type string. Received undefined"))
  | Some name => mret (path_join keyPath [name])
  end.

Definition orgPath_of (orgName : string) : path :=
  path_resolve __dirname
    [".."; "fabric-samples"; "test-network"; "organizations"; "peerOrganizations";
     orgName].

Definition mspPath_of (orgName : string) : path :=
  path_join (orgPath_of orgName) ["users"; "Admin@" +:+ orgName; "msp"].

Definition certPath_of (orgName : string) : path :=
  path_join (mspPath_of orgName) ["signcerts"; "cert.pem"].

Definition keyPath_of (orgName : string) : path :=
  path_join (mspPath_of orgName) ["keystore"].

(** The [try] block of [createWallet]. *)
Definition createWallet_steps (orgName : string) : M unit unit :=
  let certPath := certPath_of orgName in
  let keyPath := keyPath_of orgName in
  cert ← Buffer_toString <$> ext_read (fs_readFileSync certPath);
  entries ← ext_read (fs_readdirSync keyPath);
  let keyFile := head entries in
  keyFilePath ← join_keyFile keyPath keyFile;
  key ← Buffer_toString <$> ext_read (fs_readFileSync keyFilePath);
  let walletPath := walletPath_of orgName in
  wallet ← ext_call (Wallets_newFileSystemWallet walletPath);
  let identity :=
    Identity (Credentials cert key)
      (if bool_decide (orgName = "org1.example.com") then "Org1MSP" else "Org2MSP")
      "X.509" in
  emit (WalletPut wallet "admin" identity);;
  ext_call (wallet_put wallet "admin" identity);;
  console_log
    [LStr ("Successfully created wallet for " +:+ orgName +:+ " with admin identity.")].

Definition createWallet (orgName : string) : M unit unit :=
  console_log [LStr ("Creating wallet for " +:+ orgName +:+ "...")];;
  try_catch (createWallet_steps orgName)
    (λ error,
      console_error [LStr ("Error creating wallet for " +:+ orgName +:+ ":"); LErr error]).

Definition main : M unit unit :=
  let walletDir := path_join __dirname ["wallet"] in
  found ← ext_read (λ e, inr (fs_existsSync walletDir e));
  (if found : bool
   then console_log [LStr "Removing old wallets..."];;
        ext_call (fs_rmSync walletDir)
   else mret tt);;
  createWallet "org1.example.com";;
  createWallet "org2.example.com".

(** The identity-store writes among the events. *)
Definition is_wallet_put (ev : Event) : bool :=
  match ev with
  | WalletPut _ _ _ => true
  | _ => false
  end.

Definition wallet_puts (evs : list Event) : list Event :=
  List.filter is_wallet_put evs.

End SetupWallets.
End SetupWallets.

(** ** A simulated deployment

    A concrete [Platform] on which the scenarios below run: a file system of
    readable files and directory listings, one identity store per wallet
    directory, and a ledger network that is reachable or not, records what is
    submitted and answers with fixed bytes. *)

Module Sim.

Record SimExt : Type := mkSimExt {
  files : gmap path (list Byte.byte);
  dirs : gmap path (list string);
  store : gmap path (gmap string x509_identity);
  network_up : bool;
  gateways : nat;
  failing_disconnect : list nat;
  disconnected : list nat;
  submitted : list (string * list jsval);
  submit_reply : list Byte.byte;
  query_reply : list Byte.byte;
}.

Definition set_store (f : gmap path (gmap string x509_identity) → gmap path (gmap string x509_identity))
    (e : SimExt) : SimExt :=
  mkSimExt (files e) (dirs e) (f (store e)) (network_up e) (gateways e)
    (failing_disconnect e) (disconnected e) (submitted e) (submit_reply e) (query_reply e).

Definition sim_readFileSync (p : path) (e : SimExt) : exn + list Byte.byte :=
  match files e !! p with
  | Some b => inr b
  | None => inl (Error "ENOENT: no such file or directory")
  end.

Definition sim_readdirSync (p : path) (e : SimExt) : exn + list string :=
  match dirs e !! p with
  | Some l => inr l
  | None => inl (Error "ENOENT: no such file or directory, scandir")
  end.

Definition sim_existsSync (p : path) (e : SimExt) : bool :=
  bool_decide (map_Exists (λ k _, p `prefix_of` k) (store e)).

Definition sim_rmSync (p : path) (e : SimExt) : (exn + unit) * SimExt :=
  (inr tt, set_store (filter (λ kv, ¬ (p `prefix_of` kv.1))) e).

Definition sim_newFileSystemWallet (p : path) (e : SimExt) : (exn + path) * SimExt :=
  (inr p, set_store (λ s, if s !! p is Some _ then s else <[p := ∅]> s) e).

Definition sim_wallet_get (w : path) (label : string) (e : SimExt)
  : (exn + option x509_identity) * SimExt :=
  (inr (store e !! w ≫= (.!! label)), e).

Definition sim_wallet_put (w : path) (label : string) (i : x509_identity) (e : SimExt)
  : (exn + unit) * SimExt :=
  (inr tt, set_store (λ s, <[w := <[label := i]> (default ∅ (s !! w))]> s) e).

Definition sim_new_Gateway (e : SimExt) : nat * SimExt :=
  (gateways e,
   mkSimExt (files e) (dirs e) (store e) (network_up e) (S (gateways e))
     (failing_disconnect e) (disconnected e) (submitted e) (submit_reply e) (query_reply e)).

Definition sim_connect (g : nat) (ccp : jsval) (o : connectionOptions path) (e : SimExt)
  : (exn + unit) * SimExt :=
  if network_up e then (inr tt, e)
  else (inl (Error "Failed to connect before the deadline"), e).

Definition sim_getNetwork (g : nat) (channel : string) (e : SimExt) : (exn + nat) * SimExt :=
  (inr g, e).

Definition sim_getContract (n : nat) (name : string) (e : SimExt) : (exn + nat) * SimExt :=
  (inr n, e).

Definition sim_disconnect (g : nat) (e : SimExt) : (exn + unit) * SimExt :=
  if bool_decide (g ∈ failing_disconnect e)
  then (inl (Error "disconnect failed"), e)
  else (inr tt,
        mkSimExt (files e) (dirs e) (store e) (network_up e) (gateways e)
          (failing_disconnect e) (disconnected e ++ [g]) (submitted e)
          (submit_reply e) (query_reply e)).

Definition sim_submit (c : nat) (fn : string) (args : list jsval) (e : SimExt)
  : (exn + list Byte.byte) * SimExt :=
  (inr (submit_reply e),
   mkSimExt (files e) (dirs e) (store e) (network_up e) (gateways e)
     (failing_disconnect e) (disconnected e) (submitted e ++ [(fn, args)])
     (submit_reply e) (query_reply e)).

Definition sim_evaluate (c : nat) (fn : string) (args : list jsval) (e : SimExt)
  : (exn + list Byte.byte) * SimExt :=
  (inr (query_reply e), e).

(** The simulated parser knows the few texts the scenarios use. *)
Definition sim_JSON_parse (s : string) : exn + jsval :=
  if bool_decide (s = "{}") then inr (JObj ∅)
  else if bool_decide (s = "[]") then inr (JArr [])
  else if bool_decide (s = "null") then inr JNull
  else if bool_decide (s = "true") then inr (JBool true)
  else if bool_decide (s = "false") then inr (JBool false)
  else inl (Error "Unexpected token in JSON").

Definition platform : Platform := {|
  Ext := SimExt;
  Gateway := nat;
  Network := nat;
  Contract := nat;
  Wallet := path;
  __dirname := ["home"; "fabric-dev"; "log-server"];
  fs_readFileSync := sim_readFileSync;
  fs_readdirSync := sim_readdirSync;
  fs_existsSync := sim_existsSync;
  fs_rmSync := sim_rmSync;
  Wallets_newFileSystemWallet := sim_newFileSystemWallet;
  wallet_get := sim_wallet_get;
  wallet_put := sim_wallet_put;
  new_Gateway := sim_new_Gateway;
  gateway_connect := sim_connect;
  gateway_getNetwork := sim_getNetwork;
  network_getContract := sim_getContract;
  gateway_disconnect := sim_disconnect;
  contract_submitTransaction := sim_submit;
  contract_evaluateTransaction := sim_evaluate;
  JSON_parse := sim_JSON_parse;
  Buffer_toString := String.string_of_list_byte;
  Buffer_toString_empty := λ b,
    match b with
    | [] => conj (λ _, eq_refl) (λ _, eq_refl)
    | x :: b' =>
        conj (λ H : String.string_of_list_byte (x :: b') = EmptyString,
                match H in _ = s return (if s is EmptyString then x :: b' = [] else True)
                with eq_refl => I end)
             (λ H : x :: b' = [],
                match H in _ = l return (if l is [] then _ = EmptyString else True)
                with eq_refl => I end)
    end;
|}.

(** An outside world with nothing in it and the network down. *)
Definition empty_ext : SimExt :=
  mkSimExt ∅ ∅ ∅ false 0 [] [] [] [] [].

(** A clock that advances one millisecond per reading from [t0]. *)
Definition ticking (t0 : Z) : nat → Z := λ n, (Z.of_nat n + t0)%Z.

(** *** Scenarios *)

Section Scenarios.
Import Server SetupWallets.
#[local] Existing Instance platform.

(** 2026-11-02T07:25:00.123Z *)
Definition t0 : Z := 1793604300123.

(** The claim log of the specification's scenario. *)
Definition asha : jsobj :=
  {[ "claimId" := JStr "C1"; "farmerName" := JStr "Asha";
     "cropType" := JStr "Wheat"; "status" := JStr "Filed" ]}.

(** The server before any connection was stored: every organisation is served
    from the fallback list. *)
Definition fallback_world : Process server :=
  mkWorld (mkServer ∅ []) empty_ext (ticking t0) 0 [].

(** Both organisations connected (gateways and contracts 0 and 1); the ledger
    answers a write with [reply]; [broken] lists the gateways whose
    [disconnect] throws. *)
Definition live_world (reply : list Byte.byte) (broken : list nat) : Process server :=
  mkWorld
    (mkServer {[ ORG1_NAME := Conn (Some 0%nat) (Some 0%nat);
                 ORG2_NAME := Conn (Some 1%nat) (Some 1%nat) ]} [])
    (mkSimExt ∅ ∅ ∅ true 2 broken [] [] reply (String.list_byte_of_string "[]"))
    (ticking t0) 0 [].

(** [live_world] after the contract of organisation 1 was set to [null]. *)
Definition org1_down (w : Process server) : Process server :=
  mkWorld
    (mkServer (<[ORG1_NAME := Conn (Some 0%nat) None]> (orgConnections (mem w)))
       (claimsLogs (mem w)))
    (ext w) (clock w) (reads w) (out w).

(** The crypto material of organisation 1 with two files in its keystore;
    organisation 2 has none. *)
Definition two_keys_ext : SimExt :=
  mkSimExt
    {[ certPath_of "org1.example.com" := String.list_byte_of_string "CERT";
       path_join (keyPath_of "org1.example.com") ["a_sk"] := String.list_byte_of_string "KEY-A";
       path_join (keyPath_of "org1.example.com") ["b_sk"] := String.list_byte_of_string "KEY-B" ]}
    {[ keyPath_of "org1.example.com" := ["a_sk"; "b_sk"] ]}
    ∅ false 0 [] [] [] [] [].

(** Organisation 1 has a connection profile and an admin identity and the
    network is up; organisation 2 has neither file nor identity. *)
Definition org1_only_ext : SimExt :=
  mkSimExt
    {[ ccpPath_of ORG1_NAME := String.list_byte_of_string "{}" ]}
    ∅
    {[ walletPath_of ORG1_NAME :=
         {[ "admin" := Identity (Credentials "CERT" "KEY-A") "Org1MSP" "X.509" ]} ]}
    true 0 [] [] [] [] [].

Definition boot_world (e : SimExt) : Process server :=
  mkWorld (mkServer ∅ []) e (ticking t0) 0 [].

Definition setup_world (e : SimExt) : Process unit :=
  mkWorld tt e (ticking t0) 0 [].

End Scenarios.

(** *** A deployment that went bad after boot

    The same file system, identity store and handles, but the disk is
    read-only ([rmSync] and [wallet.put] throw) and the peers no longer
    answer ([submitTransaction] and [evaluateTransaction] throw). *)

Definition failing_rmSync (p : path) (e : SimExt) : (exn + unit) * SimExt :=
  (inl (Error "EROFS: read-only file system, rm"), e).

Definition failing_wallet_put (w : path) (label : string) (i : x509_identity) (e : SimExt)
  : (exn + unit) * SimExt :=
  (inl (Error "EROFS: read-only file system, open"), e).

Definition failing_transaction (c : nat) (fn : string) (args : list jsval) (e : SimExt)
  : (exn + list Byte.byte) * SimExt :=
  (inl (Error "No valid responses from any peers"), e).

Definition failing : Platform := {|
  Ext := SimExt;
  Gateway := nat;
  Network := nat;
  Contract := nat;
  Wallet := path;
  __dirname := ["home"; "fabric-dev"; "log-server"];
  fs_readFileSync := sim_readFileSync;
  fs_readdirSync := sim_readdirSync;
  fs_existsSync := sim_existsSync;
  fs_rmSync := failing_rmSync;
  Wallets_newFileSystemWallet := sim_newFileSystemWallet;
  wallet_get := sim_wallet_get;
  wallet_put := failing_wallet_put;
  new_Gateway := sim_new_Gateway;
  gateway_connect := sim_connect;
  gateway_getNetwork := sim_getNetwork;
  network_getContract := sim_getContract;
  gateway_disconnect := sim_disconnect;
  contract_submitTransaction := failing_transaction;
  contract_evaluateTransaction := failing_transaction;
  JSON_parse := sim_JSON_parse;
  Buffer_toString := String.string_of_list_byte;
  Buffer_toString_empty := @Buffer_toString_empty platform;
|}.

Section MoreScenarios.
Import Server SetupWallets.
#[local] Existing Instance platform.

(** [live_world] with the ledger answering a query with [reply]. *)
Definition querying_world (reply : list Byte.byte) : World SimExt (event nat nat path) (server_of nat nat) :=
  mkWorld
    (mkServer {[ ORG1_NAME := Conn (Some 0%nat) (Some 0%nat);
                 ORG2_NAME := Conn (Some 1%nat) (Some 1%nat) ]} [])
    (mkSimExt ∅ ∅ ∅ true 2 [] [] [] [] reply)
    (ticking t0) 0 [].

(** Organisation 1 is configured but its attempt failed (both handles
    [null]), organisation 2 is connected, and the fallback list holds two
    records. *)
Definition degraded_world : World SimExt (event nat nat path) (server_of nat nat) :=
  mkWorld
    (mkServer {[ ORG1_NAME := Conn None None;
                 ORG2_NAME := Conn (Some 1%nat) (Some 1%nat) ]}
       [<["id" := JStr "1793604300000"]> asha; <["id" := JStr "1793604300001"]> asha])
    (mkSimExt ∅ ∅ ∅ true 2 [] [] [] [] (String.list_byte_of_string "[]"))
    (ticking t0) 0 [].

(** A second claim log. *)
Definition ravi : jsobj :=
  {[ "claimId" := JStr "C2"; "farmerName" := JStr "Ravi";
     "cropType" := JStr "Rice"; "status" := JStr "Approved";
     "timestamp" := JStr "2026-10-31T00:00:00.000Z" ]}.

(** The crypto material of [two_keys_ext] with a wallet of an earlier run in
    the identity store. *)
Definition stale_wallet_ext : SimExt :=
  set_store (λ _, {[ walletPath_of "org1.example.com" :=
                       {[ "admin" := Identity (Credentials "OLD" "OLD") "Org1MSP" "X.509" ]} ]})
    two_keys_ext.

End MoreScenarios.

End Sim.

(** * Properties *)

(** Unfolds the monad so that a computation becomes a term over its start
    world. *)
Ltac run :=
  cbv beta iota zeta delta
    [mbind M_bind mret M_ret fmap M_fmap try_catch throw get_mem modify_mem emit
     console_log console_error ext_read ext_call lift_exn Date_now
     new_Date_toISOString process_exit mem ext clock reads out fst snd].

Section NumericStrings.

Lemma all_digits_of_uint (d : Decimal.uint) :
  all_digits (NilEmpty.string_of_uint d) = true.
Proof. induction d; simpl; auto. Qed.

Lemma digits_of_uint (d : Decimal.uint) :
  d ≠ Decimal.Nil → digits (NilZero.string_of_uint d) = true.
Proof.
  intros Hd. destruct d; try congruence; simpl; apply all_digits_of_uint.
Qed.

(** [Date.now().toString()] is a numeric string whatever the clock shows. *)
Lemma Number_toString_numeric (n : Z) : numeric_string (Number_toString n) = true.
Proof.
  unfold Number_toString. destruct n as [|p|p]; [reflexivity| |].
  - cbn [Z.to_int NilZero.string_of_int].
    pose proof (DecimalPos.Unsigned.to_uint_nonnil p) as Hp.
    pose proof (digits_of_uint _ Hp) as Hd.
    destruct (Pos.to_uint p); try congruence; exact Hd.
  - cbn [Z.to_int NilZero.string_of_int numeric_string].
    rewrite bool_decide_eq_true_2 by reflexivity.
    apply digits_of_uint, DecimalPos.Unsigned.to_uint_nonnil.
Qed.

End NumericStrings.

Module ServerFacts.
Section ServerFacts.
Import Server.
Context `{P : Platform}.

Lemma missing_required_iff (claimLog : jsobj) :
  missing_required claimLog = true ↔
  ∃ k, k ∈ required_fields ∧ truthy (prop claimLog k) = false.
Proof.
  unfold missing_required, required_fields. rewrite !orb_true_iff, !negb_true_iff. split.
  - intros [[[H|H]|H]|H]; eexists; (split; [|exact H]); set_solver.
  - intros (k & Hk & Hf). set_unfold in Hk.
    destruct Hk as [->|[->|[->|[->|[]]]]]; tauto.
Qed.

(** What the POST handler does on a body that fails the required-field test:
    one console line, the 400 response, nothing else. *)
Lemma post_rejects org claimLog (w : Process server) :
  missing_required claimLog = true →
  post_claims_logs org claimLog w =
    (Ok (Response 400 missing_fields_body),
     mkWorld (mem w) (ext w) (clock w) (reads w)
       (out w ++ [ConsoleLog [LStr ("📝 Received claim log for " +:+ org +:+ ":");
                              LVal (JObj claimLog)]])).
Proof.
  intros H. unfold post_claims_logs. run. rewrite H. reflexivity.
Qed.

(** C1: when one of [claimId], [farmerName], [cropType], [status] is absent
    from the body, the POST handler answers 400 with
    [{error: "Missing required fields", required: [...]}]; the process memory
    (the fallback list in it) and the outside world (the ledger in it) are as
    before, and no ledger operation was invoked. *)
Theorem missing_field_is_rejected org (claimLog : jsobj) k (w : Process server) :
  k ∈ required_fields →
  claimLog !! k = None →
  let '(r, w') := post_claims_logs org claimLog w in
  r = Ok (Response 400 missing_fields_body)
  ∧ mem w' = mem w
  ∧ ext w' = ext w
  ∧ ledger_calls (out w') = ledger_calls (out w).
Proof.
  intros Hk Hnone.
  rewrite post_rejects.
  - repeat split. unfold ledger_calls. simpl. rewrite List.filter_app. simpl. apply app_nil_r.
  - apply missing_required_iff. exists k. split; [done|]. unfold prop. by rewrite Hnone.
Qed.

(** C10: the required-field test is a truthiness test.  A body that binds a
    required field to a falsy value is answered 400, with the same response
    and the same memory and outside world as the body without that field. *)
Theorem falsy_field_is_rejected org (claimLog : jsobj) k v (w : Process server) :
  k ∈ required_fields →
  claimLog !! k = Some v →
  truthy v = false →
  (post_claims_logs org claimLog w).1 = Ok (Response 400 missing_fields_body)
  ∧ (post_claims_logs org claimLog w).1 = (post_claims_logs org (delete k claimLog) w).1
  ∧ mem (post_claims_logs org claimLog w).2 = mem (post_claims_logs org (delete k claimLog) w).2
  ∧ ext (post_claims_logs org claimLog w).2 = ext (post_claims_logs org (delete k claimLog) w).2.
Proof.
  intros Hk Hsome Hfalsy.
  rewrite !post_rejects; [done| |].
  - apply missing_required_iff. exists k. split; [done|]. unfold prop. by rewrite lookup_delete_eq.
  - apply missing_required_iff. exists k. split; [done|]. unfold prop. by rewrite Hsome.
Qed.

Lemma get_fallback org (w : Process server) :
  contract_of (mem w) org = None →
  (get_claims_logs org w).1 = Ok (Response 200 (JArr (JObj <$> claimsLogs (mem w))))
  ∧ mem (get_claims_logs org w).2 = mem w
  ∧ ext (get_claims_logs org w).2 = ext w
  ∧ ledger_calls (out (get_claims_logs org w).2) = ledger_calls (out w).
Proof.
  intros H. destruct w as [m e c r o]; simpl in *.
  unfold get_claims_logs. run. rewrite H. split_and!; try done.
  unfold ledger_calls. rewrite !List.filter_app. simpl. by rewrite !app_nil_r.
Qed.

(** C2: for an organisation without a contract handle, configured or not,
    the GET handler answers 200 with the fallback list as it is; two such
    organisations get the same answer; the list and the outside world are not
    changed and no ledger operation is invoked. *)
Theorem fallback_list_is_shared org org' (w : Process server) :
  contract_of (mem w) org = None →
  contract_of (mem w) org' = None →
  (get_claims_logs org w).1 = Ok (Response 200 (JArr (JObj <$> claimsLogs (mem w))))
  ∧ (get_claims_logs org' w).1 = (get_claims_logs org w).1
  ∧ mem (get_claims_logs org w).2 = mem w
  ∧ ext (get_claims_logs org w).2 = ext w
  ∧ ledger_calls (out (get_claims_logs org w).2) = ledger_calls (out w).
Proof.
  intros H H'.
  destruct (get_fallback org w H) as (-> & -> & -> & ->),
           (get_fallback org' w H') as (-> & _). done.
Qed.

Lemma unconfigured_has_no_contract (s : server) org :
  orgConnections s !! org = None → contract_of s org = None.
Proof. unfold contract_of. by intros ->. Qed.

Lemma ledger_calls_app (l l' : list Event) :
  ledger_calls (l ++ l') = ledger_calls l ++ ledger_calls l'.
Proof. apply List.filter_app. Qed.

(** C3: a valid POST for an organisation with contract handle [c] invokes
    exactly one ledger operation, [c.submitTransaction("AddClaimLog", claimId,
    farmerName, cropType, timestamp-or-current-time, status)]: that call is
    the one event of the trace and the outside world afterwards is the one
    that call leaves.  The fallback list is left as it was. *)
Theorem live_post_submits_five_arguments org (claimLog : jsobj) c (w : Process server) :
  missing_required claimLog = false →
  contract_of (mem w) org = Some c →
  let timestamp :=
    if truthy (prop claimLog "timestamp") then prop claimLog "timestamp"
    else JStr (toISOString (clock w (reads w))) in
  let args :=
    [prop claimLog "claimId"; prop claimLog "farmerName";
     prop claimLog "cropType"; timestamp; prop claimLog "status"] in
  let w' := (post_claims_logs org claimLog w).2 in
  ledger_calls (out w') = ledger_calls (out w) ++ [SubmitTransaction c "AddClaimLog" args]
  ∧ ext w' = (contract_submitTransaction c "AddClaimLog" args (ext w)).2
  ∧ claimsLogs (mem w') = claimsLogs (mem w)
  ∧ orgConnections (mem w') = orgConnections (mem w).
Proof.
  intros Hvalid Hc. destruct w as [m e c0 r o]; simpl in *.
  unfold post_claims_logs, submitTransaction, or_now. run.
  rewrite Hvalid, Hc.
  destruct (truthy (prop claimLog "timestamp")); run; rewrite Hc;
    (destruct (contract_submitTransaction _ _ _ _) as [[err|bytes] e']; run;
     [|case_bool_decide; [|destruct (JSON_parse _)]]);
    simpl; rewrite !ledger_calls_app; simpl; rewrite ?app_nil_r; done.
Qed.

(** C9: when the ledger write returns no bytes the POST handler answers 200
    with the empty object, which is not the submitted claim log; when it
    returns bytes, the answer is 200 with what [JSON.parse] makes of them, and
    the 500 failure response when they do not parse. *)
Theorem empty_write_result_is_empty_record org (claimLog : jsobj) c (w : Process server)
    bytes e' :
  missing_required claimLog = false →
  contract_of (mem w) org = Some c →
  contract_submitTransaction c "AddClaimLog"
    [prop claimLog "claimId"; prop claimLog "farmerName"; prop claimLog "cropType";
     (if truthy (prop claimLog "timestamp") then prop claimLog "timestamp"
      else JStr (toISOString (clock w (reads w))));
     prop claimLog "status"] (ext w) = (inr bytes, e') →
  let r := (post_claims_logs org claimLog w).1 in
  (bytes = [] → r = Ok (Response 200 (JObj ∅)) ∧ JObj ∅ ≠ JObj claimLog)
  ∧ (bytes ≠ [] → ∀ record,
       JSON_parse (Buffer_toString bytes) = inr record → r = Ok (Response 200 record))
  ∧ (bytes ≠ [] → ∀ error,
       JSON_parse (Buffer_toString bytes) = inl error →
       r = Ok (Response 500
                 (JObj {[ "error" := JStr "Failed to add claim log";
                          "details" := JStr (message error) ]}))).
Proof.
  intros Hvalid Hc Hsubmit. destruct w as [m e c0 r0 o]; simpl in *.
  unfold post_claims_logs, submitTransaction, or_now. run.
  rewrite Hvalid, Hc.
  assert (Hne : JObj ∅ ≠ JObj claimLog).
  { intros [= <-]. unfold missing_required, prop in Hvalid.
    rewrite lookup_empty in Hvalid. discriminate Hvalid. }
  destruct (truthy (prop claimLog "timestamp")); run; rewrite Hc, Hsubmit; run;
    (case_bool_decide as Hempty; rewrite Buffer_toString_empty in Hempty;
     [subst bytes; repeat split; done|]);
    (split; [done|]); split; intros _ x Hx; rewrite Hx; reflexivity.
Qed.

(** C5, as the code has it: a valid POST for an organisation without a
    contract handle answers 200 with the stored record.  Its [id] is the
    decimal text of the server clock, a numeric string, whatever the caller
    sent; its [createdAt] is the caller's [createdAt] when that is truthy and
    the server's current time otherwise; fields other than [id], [timestamp]
    and [createdAt] are the caller's.  The record is appended to the fallback
    list, and a GET on the same path right after returns the list with that
    record last. *)
Theorem fallback_post_stores_record org (claimLog : jsobj) (w : Process server) :
  missing_required claimLog = false →
  contract_of (mem w) org = None →
  ∃ record w',
    post_claims_logs org claimLog w = (Ok (Response 200 (JObj record)), w')
    ∧ record !! "id" = Some (JStr (Number_toString (clock w (reads w))))
    ∧ numeric_string (Number_toString (clock w (reads w))) = true
    ∧ record !! "createdAt" =
        Some (if truthy (prop claimLog "createdAt") then prop claimLog "createdAt"
              else JStr (toISOString
                           (clock w (if truthy (prop claimLog "timestamp")
                                     then S (reads w) else S (S (reads w))))))
    ∧ (∀ k, k ∉ ["id"; "timestamp"; "createdAt"] → record !! k = claimLog !! k)
    ∧ claimsLogs (mem w') = claimsLogs (mem w) ++ [record]
    ∧ (get_claims_logs org w').1 =
        Ok (Response 200 (JArr (JObj <$> (claimsLogs (mem w) ++ [record])))).
Proof.
  intros Hvalid Hc. destruct w as [m e c r o]; simpl in *.
  unfold post_claims_logs, or_now. run.
  rewrite Hvalid, Hc.
  assert (Hts : ∀ v (o : jsobj), prop (<["id" := v]> o) "timestamp" = prop o "timestamp").
  { intros. unfold prop. by rewrite lookup_insert_ne. }
  assert (Hca : ∀ v v' (o : jsobj),
             prop (<["timestamp" := v]> (<["id" := v']> o)) "createdAt" = prop o "createdAt").
  { intros. unfold prop. by rewrite !lookup_insert_ne. }
  rewrite Hts.
  destruct (truthy (prop claimLog "timestamp")); run; rewrite Hca;
    destruct (truthy (prop claimLog "createdAt")); run;
    eexists _, _; (split; [reflexivity|]);
    rewrite lookup_insert_eq, !lookup_insert_ne, lookup_insert_eq by done;
    (split; [reflexivity|]); (split; [apply Number_toString_numeric|]);
    (split; [reflexivity|]);
    (split; [intros k Hk; set_unfold in Hk; rewrite !lookup_insert_ne by naive_solver; done|]);
    (split; [reflexivity|]);
    apply get_fallback; exact Hc.
Qed.

(** The health handler reads the connection map and the clock, and touches
    nothing. *)
Lemma health_run (w : Process server) :
  health w =
    (Ok (Response 200
           (JObj {[ "status" := JStr "OK";
                    "fabricConnectedOrg1" :=
                      JBool (bool_decide (is_Some (contract_of (mem w) ORG1_NAME)));
                    "fabricConnectedOrg2" :=
                      JBool (bool_decide (is_Some (contract_of (mem w) ORG2_NAME)));
                    "timestamp" := JStr (toISOString (clock w (reads w))) ]})),
     mkWorld (mem w) (ext w) (clock w) (S (reads w)) (out w)).
Proof. destruct w. reflexivity. Qed.

(** C8, as the code has it: every health check answers 200 with [status],
    one flag per organisation telling whether its contract handle is set, and
    the clock reading as [timestamp], and changes neither the process memory,
    the outside world nor the trace.  When the handle of one organisation goes
    from set to [null] between two checks, its flag goes from [true] to
    [false] and every other field is the same, except [timestamp], which is
    the clock reading of each check. *)
Theorem health_reports_liveness (w w2 : Process server) org other flag c :
  (org = ORG1_NAME ∧ other = ORG2_NAME ∧ flag = "fabricConnectedOrg1")
  ∨ (org = ORG2_NAME ∧ other = ORG1_NAME ∧ flag = "fabricConnectedOrg2") →
  contract_of (mem w) org = Some c →
  contract_of (mem w2) org = None →
  contract_of (mem w2) other = contract_of (mem w) other →
  Forall (λ x : Process server,
      (health x).1 =
        Ok (Response 200
              (JObj {[ "status" := JStr "OK";
                       "fabricConnectedOrg1" :=
                         JBool (bool_decide (is_Some (contract_of (mem x) ORG1_NAME)));
                       "fabricConnectedOrg2" :=
                         JBool (bool_decide (is_Some (contract_of (mem x) ORG2_NAME)));
                       "timestamp" := JStr (toISOString (clock x (reads x))) ]}))
      ∧ mem (health x).2 = mem x ∧ ext (health x).2 = ext x ∧ out (health x).2 = out x)
    [w; w2]
  ∧ ∃ b1 b2,
      (health w).1 = Ok (Response 200 (JObj b1))
      ∧ (health w2).1 = Ok (Response 200 (JObj b2))
      ∧ b1 !! flag = Some (JBool true)
      ∧ b2 !! flag = Some (JBool false)
      ∧ b2 = <[flag := JBool false]>
               (<["timestamp" := JStr (toISOString (clock w2 (reads w2)))]> b1)
      ∧ (∀ k, k ≠ flag → k ≠ "timestamp" → b2 !! k = b1 !! k).
Proof.
  intros Horg Hlive Hnull Hother. split.
  - repeat apply Forall_cons_2; [..|apply Forall_nil_2];
      rewrite health_run; cbn [fst snd mem ext out]; done.
  - rewrite !health_run. cbn [fst snd mem ext out].
    eexists _, _. split; [reflexivity|]. split; [reflexivity|].
    destruct Horg as [(-> & -> & ->)|(-> & -> & ->)];
      rewrite Hlive, Hnull, Hother;
      rewrite !(bool_decide_eq_true_2 (is_Some (Some c))) by eauto;
      rewrite !(bool_decide_eq_false_2 (is_Some None)) by (intros [? [=]]);
      split_and!; try done.
    all: try (by simplify_map_eq).
    all: intros k Hk1 Hk2; rewrite !lookup_insert; repeat case_decide; subst; try done.
    all: by rewrite !lookup_singleton_ne.
Qed.

(** C4, as the code has it: when each disconnect the interrupt handler
    invokes returns, the gateway of organisation 1 and then that of
    organisation 2 is disconnected if it is set, the outside world is the one
    those calls leave, and the handler ends in [process.exit(0)], having
    invoked exactly those disconnects. *)
Theorem sigint_disconnects_then_exits (w : Process server) :
  let e1 := match gateway_of (mem w) ORG1_NAME with
            | Some g => (gateway_disconnect g (ext w)).2
            | None => ext w
            end in
  let e2 := match gateway_of (mem w) ORG2_NAME with
            | Some g => (gateway_disconnect g e1).2
            | None => e1
            end in
  (∀ g, gateway_of (mem w) ORG1_NAME = Some g → (gateway_disconnect g (ext w)).1 = inr tt) →
  (∀ g, gateway_of (mem w) ORG2_NAME = Some g → (gateway_disconnect g e1).1 = inr tt) →
  (on_SIGINT w).1 = Exit 0
  ∧ ledger_calls (out (on_SIGINT w).2) =
      ledger_calls (out w)
      ++ (Disconnect <$> option_list (gateway_of (mem w) ORG1_NAME))
      ++ (Disconnect <$> option_list (gateway_of (mem w) ORG2_NAME))
  ∧ ext (on_SIGINT w).2 = e2
  ∧ last (out (on_SIGINT w).2) = Some (ProcessExit 0).
Proof.
  intros e1 e2 H1 H2. subst e1 e2. destruct w as [m e c r o]; cbn [mem ext out] in *.
  unfold on_SIGINT. run.
  destruct (gateway_of m ORG1_NAME) as [g1|].
  - specialize (H1 g1 eq_refl). run.
    destruct (gateway_disconnect g1 e) as [[err|[]] e1'] eqn:Hd1; [discriminate H1|]. run.
    destruct (gateway_of m ORG2_NAME) as [g2|].
    + specialize (H2 g2 eq_refl). run. cbn [snd] in *.
      destruct (gateway_disconnect g2 _) as [[err|[]] e2'] eqn:Hd2; [discriminate H2|]. run.
      split_and!; [done| |done|by rewrite last_snoc].
      rewrite !ledger_calls_app. simpl. by rewrite <- !app_assoc.
    + run. split_and!; [done| |done|by rewrite last_snoc].
      rewrite !ledger_calls_app. simpl. by rewrite <- !app_assoc.
  - run. destruct (gateway_of m ORG2_NAME) as [g2|].
    + specialize (H2 g2 eq_refl). run.
      destruct (gateway_disconnect g2 _) as [[err|[]] e2'] eqn:Hd2; [discriminate H2|]. run.
      split_and!; [done| |done|by rewrite last_snoc].
      rewrite !ledger_calls_app. simpl. by rewrite <- !app_assoc.
    + run. split_and!; [done| |done|by rewrite last_snoc].
      rewrite !ledger_calls_app. simpl. by rewrite <- !app_assoc.
Qed.

(** Case analysis on the outcome of each outside call of a connection
    attempt, in program order. *)
Ltac connect_cases :=
  repeat (run; match goal with
    | |- context [new_Gateway ?e] => destruct (new_Gateway e) as [? ?]
    | |- context [fs_readFileSync ?p ?e] => destruct (fs_readFileSync p e) as [?|?]
    | |- context [JSON_parse ?t] => destruct (JSON_parse t) as [?|?]
    | |- context [Wallets_newFileSystemWallet ?p ?e] =>
        destruct (Wallets_newFileSystemWallet p e) as [[?|?] ?]
    | |- context [wallet_get ?wl ?l ?e] => destruct (wallet_get wl l e) as [[?|[?|]] ?]
    | |- context [gateway_connect ?g ?c ?o ?e] =>
        destruct (gateway_connect g c o e) as [[?|[]] ?]
    | |- context [gateway_getNetwork ?g ?c ?e] =>
        destruct (gateway_getNetwork g c e) as [[?|?] ?]
    | |- context [network_getContract ?n ?c ?e] =>
        destruct (network_getContract n c e) as [[?|?] ?]
    end); run.

(** The steps of a connection attempt end with both handles or with a
    throw, and leave the process memory alone. *)
Lemma connect_steps_cases org (w : Process server) :
  ((∃ g k, (connect_steps org w).1 = Ok (Conn (Some g) (Some k)))
   ∨ (∃ e, (connect_steps org w).1 = Throw e))
  ∧ mem (connect_steps org w).2 = mem w.
Proof.
  destruct w as [m e c r o]. unfold connect_steps.
  connect_cases; (split; [|reflexivity]); eauto.
Qed.

(** [initializeFabricForOrg] never throws: it returns what the steps built,
    or the pair of nulls when they threw. *)
Lemma initializeFabricForOrg_cases org (w : Process server) :
  ∃ c, (initializeFabricForOrg org w).1 = Ok c
       ∧ ((c = Conn None None ∧ ∃ e, (connect_steps org w).1 = Throw e)
          ∨ ((∃ g k, c = Conn (Some g) (Some k)) ∧ (connect_steps org w).1 = Ok c)).
Proof.
  unfold initializeFabricForOrg.
  destruct (connect_steps_cases org w) as [[(g & k & H)|(e & H)] _];
    run; destruct (connect_steps org w) as [[c|e'|code] w1]; simpl in H;
    simplify_eq; run; eauto 10.
Qed.

Lemma initializeFabricForOrg_mem org (w : Process server) :
  mem (initializeFabricForOrg org w).2 = mem w.
Proof.
  unfold initializeFabricForOrg.
  destruct (connect_steps_cases org w) as [_ Hm]. run.
  destruct (connect_steps org w) as [[c|e'|code] [m1 e1 k1 r1 o1]]; exact Hm.
Qed.

(** The failures the connection manager names: no descriptor, a descriptor
    that does not parse, no admin identity in the wallet, a network that
    cannot be reached.  Each leaves the pair of nulls. *)
Lemma named_failures_are_unavailable org (w : Process server) g e0 :
  new_Gateway (ext w) = (g, e0) →
  (∀ err, fs_readFileSync (ccpPath_of org) e0 = inl err →
     (initializeFabricForOrg org w).1 = Ok (Conn None None))
  ∧ (∀ bytes err,
       fs_readFileSync (ccpPath_of org) e0 = inr bytes →
       JSON_parse (Buffer_toString bytes) = inl err →
       (initializeFabricForOrg org w).1 = Ok (Conn None None))
  ∧ (∀ bytes ccp wl e1 e2,
       fs_readFileSync (ccpPath_of org) e0 = inr bytes →
       JSON_parse (Buffer_toString bytes) = inr ccp →
       Wallets_newFileSystemWallet (walletPath_of org) e0 = (inr wl, e1) →
       wallet_get wl "admin" e1 = (inr None, e2) →
       (initializeFabricForOrg org w).1 = Ok (Conn None None))
  ∧ (∀ bytes ccp wl e1 i e2 err e3,
       fs_readFileSync (ccpPath_of org) e0 = inr bytes →
       JSON_parse (Buffer_toString bytes) = inr ccp →
       Wallets_newFileSystemWallet (walletPath_of org) e0 = (inr wl, e1) →
       wallet_get wl "admin" e1 = (inr (Some i), e2) →
       gateway_connect g ccp (ConnectionOptions wl "admin" false true 100 60) e2
         = (inl err, e3) →
       (initializeFabricForOrg org w).1 = Ok (Conn None None)).
Proof.
  intros Hg. destruct w as [m e c r o]. cbn [ext] in Hg.
  unfold initializeFabricForOrg, connect_steps. run. rewrite Hg. run.
  split_and!.
  - intros err ->. reflexivity.
  - intros bytes err -> ->. reflexivity.
  - intros bytes ccp wl e1 e2 -> -> -> ->. reflexivity.
  - intros bytes ccp wl e1 i e2 err e3 -> -> -> -> ->. reflexivity.
Qed.

(** C6: a connection attempt never throws and yields either both handles or
    the pair of nulls, the latter exactly when one of its steps threw; in
    particular a missing or unparseable connection profile, an absent admin
    identity and a failed network connection each give the pair of nulls.
    [initializeFabric] stores one such entry for each of the two
    organisations, the second being the outcome of its own attempt whatever
    the first attempt gave. *)
Theorem connection_is_whole_or_none (w : Process server) :
  (∀ org, ∃ c,
      (initializeFabricForOrg org w).1 = Ok c
      ∧ ((c = Conn None None ∧ ∃ e, (connect_steps org w).1 = Throw e)
         ∨ ((∃ g k, c = Conn (Some g) (Some k)) ∧ (connect_steps org w).1 = Ok c)))
  ∧ (∀ org g e0,
       new_Gateway (ext w) = (g, e0) →
       (∀ err, fs_readFileSync (ccpPath_of org) e0 = inl err →
          (initializeFabricForOrg org w).1 = Ok (Conn None None))
       ∧ (∀ bytes err,
            fs_readFileSync (ccpPath_of org) e0 = inr bytes →
            JSON_parse (Buffer_toString bytes) = inl err →
            (initializeFabricForOrg org w).1 = Ok (Conn None None))
       ∧ (∀ bytes ccp wl e1 e2,
            fs_readFileSync (ccpPath_of org) e0 = inr bytes →
            JSON_parse (Buffer_toString bytes) = inr ccp →
            Wallets_newFileSystemWallet (walletPath_of org) e0 = (inr wl, e1) →
            wallet_get wl "admin" e1 = (inr None, e2) →
            (initializeFabricForOrg org w).1 = Ok (Conn None None))
       ∧ (∀ bytes ccp wl e1 i e2 err e3,
            fs_readFileSync (ccpPath_of org) e0 = inr bytes →
            JSON_parse (Buffer_toString bytes) = inr ccp →
            Wallets_newFileSystemWallet (walletPath_of org) e0 = (inr wl, e1) →
            wallet_get wl "admin" e1 = (inr (Some i), e2) →
            gateway_connect g ccp (ConnectionOptions wl "admin" false true 100 60) e2
              = (inl err, e3) →
            (initializeFabricForOrg org w).1 = Ok (Conn None None)))
  ∧ ∃ c1 w1 c2,
      initializeFabricForOrg ORG1_NAME w = (Ok c1, w1)
      ∧ (initializeFabricForOrg ORG2_NAME (set_connection ORG1_NAME c1 w1).2).1 = Ok c2
      ∧ (initializeFabric w).1 = Ok tt
      ∧ orgConnections (mem (initializeFabric w).2) =
          <[ORG2_NAME := c2]> (<[ORG1_NAME := c1]> (orgConnections (mem w)))
      ∧ whole_or_none c1 ∧ whole_or_none c2.
Proof.
  split; [intros org; apply initializeFabricForOrg_cases|].
  split; [intros org g e0; apply named_failures_are_unavailable|].
  destruct (initializeFabricForOrg_cases ORG1_NAME w) as (c1 & H1 & Hc1).
  pose proof (initializeFabricForOrg_mem ORG1_NAME w) as Hm1.
  destruct (initializeFabricForOrg ORG1_NAME w) as [r1 w1] eqn:E1.
  simpl in H1, Hm1. subst r1.
  destruct (initializeFabricForOrg_cases ORG2_NAME (set_connection ORG1_NAME c1 w1).2)
    as (c2 & H2 & Hc2).
  pose proof (initializeFabricForOrg_mem ORG2_NAME (set_connection ORG1_NAME c1 w1).2) as Hm2.
  exists c1, w1, c2. split; [reflexivity|]. split; [exact H2|].
  assert (Hw1 : whole_or_none c1).
  { destruct Hc1 as [[Hn _]|[Hs _]]; [left|right]; assumption. }
  assert (Hw2 : whole_or_none c2).
  { destruct Hc2 as [[Hn _]|[Hs _]]; [left|right]; assumption. }
  unfold initializeFabric. run. rewrite E1.
  destruct w1 as [m1 e1 k1 r1 o1]. simpl in Hm1. subst m1.
  unfold set_connection in *. run. cbn [fst snd] in *.
  destruct (initializeFabricForOrg ORG2_NAME _) as [r2 w2]. simpl in H2, Hm2. subst r2.
  destruct w2 as [m2 e2 k2 r2 o2]. simpl in Hm2. subst m2. run.
  cbn [orgConnections claimsLogs].
  destruct (negb _); run; done.
Qed.

End ServerFacts.
End ServerFacts.

Module SetupWalletsFacts.
Section SetupWalletsFacts.
Import SetupWallets.
Context `{P : Platform}.

(** [createWallet] catches whatever its steps throw. *)
Lemma createWallet_returns org (w : Process unit) :
  (createWallet org w).1 = Ok tt.
Proof.
  destruct w as [m e c r o]. unfold createWallet, createWallet_steps, join_keyFile. run.
  destruct (fs_readFileSync _ e) as [?|cert]; run; [reflexivity|].
  destruct (fs_readdirSync _ e) as [?|[|keyFile rest]]; cbn [head]; run; [reflexivity..|].
  destruct (fs_readFileSync _ e) as [?|key]; run; [reflexivity|].
  destruct (Wallets_newFileSystemWallet _ e) as [[?|wl] e1]; run; [reflexivity|].
  destruct (wallet_put wl _ _ e1) as [[?|[]] e2]; run; reflexivity.
Qed.

(** [main] with no wallet directory to remove: the two organisations are
    provisioned one after the other, the second in the state the first
    left. *)
Lemma main_attempts_both (w : Process unit) :
  fs_existsSync (path_join __dirname ["wallet"]) (ext w) = false →
  main w = createWallet "org2.example.com" (createWallet "org1.example.com" w).2.
Proof.
  intros Hno. pose proof (createWallet_returns "org1.example.com" w) as Hr.
  destruct w as [m e c r o]. cbn [ext] in Hno. unfold main. run. rewrite Hno. run.
  destruct (createWallet "org1.example.com" _) as [[[]|?|?] w1]; simpl in Hr; simplify_eq.
  reflexivity.
Qed.

(** C7, as the code has it: when the certificate cannot be read, the keystore
    cannot be listed or is empty, or the first key file listed cannot be read,
    [createWallet] reports the error on the console and returns; the outside
    world is unchanged, so no identity was written.  When the certificate and
    the first key file listed are read and the wallet accepts the record, the
    identity written holds that first key, however many files the keystore
    lists.  In both cases the next [createWallet] runs in the state this one
    left. *)
Theorem unreadable_material_fails_alone org (w : Process unit) :
  ((∃ err, fs_readFileSync (certPath_of org) (ext w) = inl err)
   ∨ (∃ err, fs_readdirSync (keyPath_of org) (ext w) = inl err)
   ∨ fs_readdirSync (keyPath_of org) (ext w) = inr []
   ∨ (∃ keyFile rest err,
        fs_readdirSync (keyPath_of org) (ext w) = inr (keyFile :: rest)
        ∧ fs_readFileSync (path_join (keyPath_of org) [keyFile]) (ext w) = inl err) →
   ∃ err,
     createWallet org w =
       (Ok tt,
        mkWorld (mem w) (ext w) (clock w) (reads w)
          (out w ++ [ConsoleLog [LStr ("Creating wallet for " +:+ org +:+ "...")];
                     ConsoleError [LStr ("Error creating wallet for " +:+ org +:+ ":");
                                   LErr err]])))
  ∧ (∀ cert keyFile rest key wl e1 e2,
       fs_readFileSync (certPath_of org) (ext w) = inr cert →
       fs_readdirSync (keyPath_of org) (ext w) = inr (keyFile :: rest) →
       fs_readFileSync (path_join (keyPath_of org) [keyFile]) (ext w) = inr key →
       Wallets_newFileSystemWallet (walletPath_of org) (ext w) = (inr wl, e1) →
       let identity :=
         Identity (Credentials (Buffer_toString cert) (Buffer_toString key))
           (if bool_decide (org = "org1.example.com") then "Org1MSP" else "Org2MSP")
           "X.509" in
       wallet_put wl "admin" identity e1 = (inr tt, e2) →
       createWallet org w =
         (Ok tt,
          mkWorld (mem w) e2 (clock w) (reads w)
            (out w ++ [ConsoleLog [LStr ("Creating wallet for " +:+ org +:+ "...")];
                       WalletPut wl "admin" identity;
                       ConsoleLog [LStr ("Successfully created wallet for " +:+ org
                                         +:+ " with admin identity.")]])))
  ∧ ∀ org', (createWallet org;; createWallet org') w
            = createWallet org' (createWallet org w).2.
Proof.
  split_and!.
  - intros Hfail. destruct w as [m e c r o]. cbn [mem ext clock reads out] in *.
    unfold createWallet, createWallet_steps, join_keyFile. run.
    destruct (fs_readFileSync (certPath_of org) e) as [err|cert]; run.
    { exists err. by rewrite <- app_assoc. }
    destruct (fs_readdirSync (keyPath_of org) e) as [err|[|keyFile rest]];
      cbn [head]; run.
    { exists err. by rewrite <- app_assoc. }
    { eexists. by rewrite <- (app_assoc o). }
    destruct (fs_readFileSync (path_join _ [keyFile]) e) as [err|key] eqn:Hkey; run.
    { exists err. by rewrite <- app_assoc. }
    exfalso. destruct Hfail as [[? [=]]|[[? [=]]|[[=]|(f & l & err & [= <- <-] & Hf)]]].
    rewrite Hkey in Hf. discriminate Hf.
  - intros cert keyFile rest key wl e1 e2 Hcert Hdir Hkey Hwl identity Hput.
    subst identity. destruct w as [m e c r o]. cbn [mem ext clock reads out] in *.
    unfold createWallet, createWallet_steps, join_keyFile. run.
    rewrite Hcert. run. rewrite Hdir. cbn [head]. run. rewrite Hkey. run.
    rewrite Hwl. run. rewrite Hput. run. by rewrite <- !app_assoc.
  - intros org'. pose proof (createWallet_returns org w) as Hr. run.
    destruct (createWallet org w) as [[[]|?|?] w1]; simpl in Hr; simplify_eq. reflexivity.
Qed.

End SetupWalletsFacts.
End SetupWalletsFacts.

(** * Scenarios on the simulated deployment *)

Module Scenarios.
Section Scenarios.
Import Server SetupWallets Sim ServerFacts SetupWalletsFacts.
#[local] Existing Instance platform.

(** A body without [status] posted in fallback mode. *)
Lemma missing_field_scenario :
  "status" ∈ required_fields
  ∧ (delete "status" asha : jsobj) !! "status" = None
  ∧ let '(r, w') := post_claims_logs ORG1_NAME (delete "status" asha) fallback_world in
    r = Ok (Response 400 missing_fields_body)
    ∧ mem w' = mem fallback_world
    ∧ ext w' = ext fallback_world
    ∧ ledger_calls (out w') = ledger_calls (out fallback_world).
Proof.
  assert (Hk : "status" ∈ required_fields) by (unfold required_fields; set_solver).
  assert (Hn : (delete "status" asha : jsobj) !! "status" = None) by apply lookup_delete_eq.
  split_and!; [exact Hk|exact Hn|].
  exact (missing_field_is_rejected ORG1_NAME (delete "status" asha) "status"
           fallback_world Hk Hn).
Defined.

(** The four falsy values of the claim, each bound to [status]. *)
Lemma falsy_field_scenario :
  Forall (λ v,
      truthy v = false
      ∧ (post_claims_logs ORG1_NAME (<["status" := v]> asha) fallback_world).1
        = Ok (Response 400 missing_fields_body)
      ∧ (post_claims_logs ORG1_NAME (<["status" := v]> asha) fallback_world).1
        = (post_claims_logs ORG1_NAME (delete "status" (<["status" := v]> asha))
             fallback_world).1)
    [JStr ""; JNum (S754_zero false); JBool false; JNull].
Proof.
  assert (Hk : "status" ∈ required_fields) by (unfold required_fields; set_solver).
  repeat apply Forall_cons_2; [..|apply Forall_nil_2];
    (split; [reflexivity|]);
    match goal with
    | |- context [<["status" := ?v]> asha] =>
        pose proof (falsy_field_is_rejected ORG1_NAME (<["status" := v]> asha) "status" v
                      fallback_world Hk (lookup_insert_eq _ _ _) eq_refl) as (H1 & H2 & _)
    end; split; assumption.
Defined.

(** The fallback list holds two records; organisation 1 is configured with
    both handles [null], another name was never configured, organisation 2
    is connected.  The first two read the same two records; the third reads
    the ledger instead. *)
Lemma shared_fallback_scenario :
  orgConnections (mem degraded_world) !! ORG1_NAME = Some (Conn None None)
  ∧ orgConnections (mem degraded_world) !! "never.configured" = None
  ∧ contract_of (mem degraded_world) ORG1_NAME = None
  ∧ contract_of (mem degraded_world) "never.configured" = None
  ∧ (get_claims_logs ORG1_NAME degraded_world).1
    = Ok (Response 200
            (JArr [JObj (<["id" := JStr "1793604300000"]> asha);
                   JObj (<["id" := JStr "1793604300001"]> asha)]))
  ∧ (get_claims_logs "never.configured" degraded_world).1
    = (get_claims_logs ORG1_NAME degraded_world).1
  ∧ claimsLogs (mem (get_claims_logs ORG1_NAME degraded_world).2)
    = claimsLogs (mem degraded_world)
  ∧ (get_claims_logs ORG2_NAME degraded_world).1 = Ok (Response 200 (JArr [])).
Proof.
  assert (H1 : contract_of (mem degraded_world) ORG1_NAME = None)
    by (vm_compute; reflexivity).
  assert (H2 : contract_of (mem degraded_world) "never.configured" = None)
    by (vm_compute; reflexivity).
  destruct (fallback_list_is_shared (P := platform) ORG1_NAME "never.configured"
              degraded_world H1 H2) as (Ha & Hb & Hm & _).
  split_and!; [vm_compute; reflexivity|vm_compute; reflexivity|exact H1|exact H2
              |exact Ha|exact Hb|by rewrite Hm|vm_compute; reflexivity].
Defined.

(** The scenario's claim log posted with organisation 1 connected: the
    ledger receives the five arguments and the fallback list stays empty. *)
Lemma live_post_scenario :
  missing_required asha = false
  ∧ contract_of (mem (live_world [] [])) ORG1_NAME = Some 0%nat
  ∧ ledger_calls (out (post_claims_logs ORG1_NAME asha (live_world [] [])).2) =
      [SubmitTransaction 0%nat "AddClaimLog"
         [JStr "C1"; JStr "Asha"; JStr "Wheat"; JStr "2026-11-02T07:25:00.123Z";
          JStr "Filed"]]
  ∧ submitted (ext (post_claims_logs ORG1_NAME asha (live_world [] [])).2) =
      [("AddClaimLog",
        [JStr "C1"; JStr "Asha"; JStr "Wheat"; JStr "2026-11-02T07:25:00.123Z";
         JStr "Filed"])]
  ∧ claimsLogs (mem (post_claims_logs ORG1_NAME asha (live_world [] [])).2) = [].
Proof.
  assert (Hv : missing_required asha = false) by (vm_compute; reflexivity).
  assert (Hc : contract_of (mem (live_world [] [])) ORG1_NAME = Some 0%nat)
    by (vm_compute; reflexivity).
  destruct (live_post_submits_five_arguments (P := platform) ORG1_NAME asha 0%nat
              (live_world [] []) Hv Hc) as (Ha & He & Hb & _).
  split_and!; [exact Hv|exact Hc| | |exact Hb].
  - etransitivity; [exact Ha|]. vm_compute. reflexivity.
  - rewrite He. vm_compute. reflexivity.
Defined.

(** The ledger answers the write with no bytes, then with the bytes of an
    empty JSON object. *)
Lemma write_result_scenario :
  (post_claims_logs ORG1_NAME asha (live_world [] [])).1 = Ok (Response 200 (JObj ∅))
  ∧ JObj ∅ ≠ JObj asha
  ∧ (post_claims_logs ORG1_NAME asha
       (live_world (String.list_byte_of_string "{}") [])).1
    = Ok (Response 200 (JObj ∅))
  ∧ (post_claims_logs ORG1_NAME asha
       (live_world (String.list_byte_of_string "oops") [])).1
    = Ok (Response 500
            (JObj {[ "error" := JStr "Failed to add claim log";
                     "details" := JStr "Unexpected token in JSON" ]})).
Proof.
  assert (Hv : missing_required asha = false) by (vm_compute; reflexivity).
  assert (Hc : ∀ reply, contract_of (mem (live_world reply [])) ORG1_NAME = Some 0%nat)
    by (intros; vm_compute; reflexivity).
  destruct (empty_write_result_is_empty_record (P := platform) ORG1_NAME asha 0%nat
              (live_world [] []) [] _ Hv (Hc _) eq_refl) as ((Ha & Hne)%(λ f, f eq_refl) & _).
  destruct (empty_write_result_is_empty_record (P := platform) ORG1_NAME asha 0%nat
              (live_world (String.list_byte_of_string "{}") []) _ _ Hv (Hc _) eq_refl)
    as (_ & Hb & _).
  destruct (empty_write_result_is_empty_record (P := platform) ORG1_NAME asha 0%nat
              (live_world (String.list_byte_of_string "oops") []) _ _ Hv (Hc _) eq_refl)
    as (_ & _ & Hd).
  split_and!; [exact Ha|exact Hne| |].
  - apply Hb; [discriminate|reflexivity].
  - apply (Hd ltac:(discriminate) (Error "Unexpected token in JSON")). reflexivity.
Defined.

(** The scenario of the specification: the claim log posted and read back
    with organisation 1 in fallback mode. *)
Lemma fallback_post_scenario :
  missing_required asha = false
  ∧ contract_of (mem fallback_world) ORG1_NAME = None
  ∧ ∃ record w',
      post_claims_logs ORG1_NAME asha fallback_world = (Ok (Response 200 (JObj record)), w')
      ∧ record !! "claimId" = Some (JStr "C1")
      ∧ record !! "id" = Some (JStr "1793604300123")
      ∧ record !! "createdAt" = Some (JStr "2026-11-02T07:25:00.125Z")
      ∧ (get_claims_logs ORG1_NAME w').1 = Ok (Response 200 (JArr [JObj record])).
Proof.
  assert (Hv : missing_required asha = false) by (vm_compute; reflexivity).
  assert (Hc : contract_of (mem fallback_world) ORG1_NAME = None) by reflexivity.
  destruct (fallback_post_stores_record ORG1_NAME asha fallback_world Hv Hc)
    as (record & w' & Hpost & Hid & _ & Hca & Hrest & _ & Hget).
  split_and!; [exact Hv|exact Hc|].
  exists record, w'. split_and!; [exact Hpost| |exact Hid|exact Hca|exact Hget].
  rewrite Hrest; [reflexivity|]. intros Hin.
  repeat (apply elem_of_cons in Hin as [Hin|Hin]; [discriminate Hin|]).
  by apply elem_of_nil in Hin.
Defined.

(** A caller that sends its own [id] and [createdAt]: the [id] is replaced,
    the [createdAt] is kept. *)
Lemma caller_createdAt_is_kept :
  ∃ record w',
    post_claims_logs ORG1_NAME
      (<["id" := JStr "mine"]> (<["createdAt" := JStr "yesterday"]> asha)) fallback_world
    = (Ok (Response 200 (JObj record)), w')
    ∧ record !! "id" = Some (JStr "1793604300123")
    ∧ record !! "createdAt" = Some (JStr "yesterday").
Proof.
  eexists _, _. split; [vm_compute; reflexivity|]. split; vm_compute; reflexivity.
Qed.

(** Two health checks, the contract of organisation 1 set to [null] in
    between. *)
Lemma health_toggle_scenario :
  ∃ b1 b2,
    (health (live_world [] [])).1 = Ok (Response 200 (JObj b1))
    ∧ (health (org1_down (health (live_world [] [])).2)).1 = Ok (Response 200 (JObj b2))
    ∧ b1 !! "fabricConnectedOrg1" = Some (JBool true)
    ∧ b2 !! "fabricConnectedOrg1" = Some (JBool false)
    ∧ b2 !! "fabricConnectedOrg2" = b1 !! "fabricConnectedOrg2"
    ∧ b2 !! "status" = b1 !! "status".
Proof.
  destruct (health_reports_liveness (P := platform)
              (live_world [] []) (org1_down (health (live_world [] [])).2)
              ORG1_NAME ORG2_NAME "fabricConnectedOrg1" 0%nat
              (or_introl (conj eq_refl (conj eq_refl eq_refl)))
              eq_refl eq_refl eq_refl)
    as (_ & b1 & b2 & H1 & H2 & Ht & Hf & _ & Hframe).
  exists b1, b2. split_and!; [exact H1|exact H2|exact Ht|exact Hf| |];
    apply Hframe; discriminate.
Defined.

(** The same two checks: the [timestamp] field differs as well. *)
Lemma health_timestamp_changes :
  ∃ b1 b2,
    (health (live_world [] [])).1 = Ok (Response 200 (JObj b1))
    ∧ (health (org1_down (health (live_world [] [])).2)).1 = Ok (Response 200 (JObj b2))
    ∧ b1 !! "timestamp" = Some (JStr "2026-11-02T07:25:00.123Z")
    ∧ b2 !! "timestamp" = Some (JStr "2026-11-02T07:25:00.124Z")
    ∧ b1 !! "timestamp" ≠ b2 !! "timestamp".
Proof.
  eexists _, _. split; [vm_compute; reflexivity|]. split; [vm_compute; reflexivity|].
  split; [vm_compute; reflexivity|]. split; [vm_compute; reflexivity|].
  vm_compute. discriminate.
Qed.

(** An interrupt with both organisations connected and working gateways. *)
Lemma sigint_scenario :
  (on_SIGINT (live_world [] [])).1 = Exit 0
  ∧ ledger_calls (out (on_SIGINT (live_world [] [])).2)
    = [Disconnect 0%nat; Disconnect 1%nat]
  ∧ disconnected (ext (on_SIGINT (live_world [] [])).2) = [0%nat; 1%nat]
  ∧ last (out (on_SIGINT (live_world [] [])).2) = Some (ProcessExit 0).
Proof.
  assert (H1 : ∀ g, gateway_of (mem (live_world [] [])) ORG1_NAME = Some g →
                    (gateway_disconnect g (ext (live_world [] []))).1 = inr tt).
  { intros g Hg. vm_compute in Hg. injection Hg as <-. reflexivity. }
  assert (H2 : ∀ g, gateway_of (mem (live_world [] [])) ORG2_NAME = Some g →
                    (gateway_disconnect g
                       match gateway_of (mem (live_world [] [])) ORG1_NAME with
                       | Some g1 => (gateway_disconnect g1 (ext (live_world [] []))).2
                       | None => ext (live_world [] [])
                       end).1 = inr tt).
  { intros g Hg. vm_compute in Hg. injection Hg as <-. reflexivity. }
  destruct (sigint_disconnects_then_exits (P := platform) (live_world [] []) H1 H2)
    as (Hexit & Hcalls & Hext & Hlast).
  split_and!; [exact Hexit|exact Hcalls| |exact Hlast].
  rewrite Hext. vm_compute. reflexivity.
Defined.

(** An interrupt when the gateway of organisation 1 fails to disconnect: the
    handler stops there. *)
Lemma sigint_failed_disconnect_aborts :
  gateway_of (mem (live_world [] [0%nat])) ORG2_NAME = Some 1%nat
  ∧ (on_SIGINT (live_world [] [0%nat])).1 = Throw (Error "disconnect failed")
  ∧ out (on_SIGINT (live_world [] [0%nat])).2
    = [ConsoleLog [LStr (LF +:+ "🛑 Shutting down server...")]; Disconnect 0%nat]
  ∧ disconnected (ext (on_SIGINT (live_world [] [0%nat])).2) = [].
Proof. split_and!; vm_compute; reflexivity. Qed.

(** Boot with organisation 1 provisioned and organisation 2 not: the first
    gets both handles, the second the pair of nulls, and the missing profile
    of the second is one of the named failures. *)
Lemma boot_scenario :
  (initializeFabric (boot_world org1_only_ext)).1 = Ok tt
  ∧ orgConnections (mem (initializeFabric (boot_world org1_only_ext)).2) !! ORG1_NAME
    = Some (Conn (Some 0%nat) (Some 0%nat))
  ∧ orgConnections (mem (initializeFabric (boot_world org1_only_ext)).2) !! ORG2_NAME
    = Some (Conn None None)
  ∧ (initializeFabricForOrg ORG2_NAME (boot_world org1_only_ext)).1 = Ok (Conn None None).
Proof.
  destruct (connection_is_whole_or_none (P := platform) (boot_world org1_only_ext))
    as (_ & Hnamed & _ & _ & _ & _ & _ & Hok & _).
  destruct (Hnamed ORG2_NAME 0%nat (sim_new_Gateway org1_only_ext).2 eq_refl)
    as (Hmissing & _).
  split_and!.
  - exact Hok.
  - vm_compute. reflexivity.
  - vm_compute. reflexivity.
  - apply (Hmissing (Error "ENOENT: no such file or directory")). vm_compute. reflexivity.
Defined.

(** Organisation 2 has no crypto material: its provisioning fails and writes
    nothing, and organisation 1 is provisioned after it all the same. *)
Lemma unreadable_material_scenario :
  (∃ err, fs_readFileSync (certPath_of "org2.example.com") (ext (setup_world two_keys_ext))
          = inl err)
  ∧ (createWallet "org2.example.com" (setup_world two_keys_ext)).1 = Ok tt
  ∧ ext (createWallet "org2.example.com" (setup_world two_keys_ext)).2 = two_keys_ext
  ∧ (createWallet "org2.example.com";; createWallet "org1.example.com")
      (setup_world two_keys_ext)
    = createWallet "org1.example.com"
        (createWallet "org2.example.com" (setup_world two_keys_ext)).2.
Proof.
  assert (Hf : ∃ err, fs_readFileSync (certPath_of "org2.example.com")
                        (ext (setup_world two_keys_ext)) = inl err).
  { eexists. vm_compute. reflexivity. }
  destruct (unreadable_material_fails_alone (P := platform) "org2.example.com"
              (setup_world two_keys_ext)) as (Hfail & _ & Hnext).
  destruct (Hfail (or_introl Hf)) as (err & Hrun).
  split_and!.
  - exact Hf.
  - by rewrite Hrun.
  - by rewrite Hrun.
  - apply Hnext.
Defined.

(** Organisation 1 has two key files: the first one listed is used and the
    identity is written. *)
Lemma two_key_files_provision :
  fs_readdirSync (keyPath_of "org1.example.com") two_keys_ext = inr ["a_sk"; "b_sk"]
  ∧ (createWallet "org1.example.com" (setup_world two_keys_ext)).1 = Ok tt
  ∧ store (ext (createWallet "org1.example.com" (setup_world two_keys_ext)).2)
      !! walletPath_of "org1.example.com" ≫= (.!! "admin")
    = Some (Identity (Credentials "CERT" "KEY-A") "Org1MSP" "X.509")
  ∧ out (createWallet "org1.example.com" (setup_world two_keys_ext)).2
    = [ConsoleLog [LStr "Creating wallet for org1.example.com..."];
       WalletPut (walletPath_of "org1.example.com") "admin"
         (Identity (Credentials "CERT" "KEY-A") "Org1MSP" "X.509");
       ConsoleLog
         [LStr "Successfully created wallet for org1.example.com with admin identity."]].
Proof. split_and!; vm_compute; reflexivity. Qed.

(** Paths and names as the scripts compute them. *)
Example ccpPath_org1 :
  ccpPath_of ORG1_NAME =
    ["home"; "fabric-dev"; "fabric-samples"; "test-network"; "organizations";
     "peerOrganizations"; "org1.example.com"; "connection-org1.json"].
Proof. reflexivity. Qed.

Example keyPath_org2 :
  keyPath_of "org2.example.com" =
    ["home"; "fabric-dev"; "fabric-samples"; "test-network"; "organizations";
     "peerOrganizations"; "org2.example.com"; "users"; "Admin@org2.example.com";
     "msp"; "keystore"].
Proof. reflexivity. Qed.

Example toISOString_epoch : toISOString 0 = "1970-01-01T00:00:00.000Z".
Proof. reflexivity. Qed.

Example toISOString_leap_day : toISOString 951782400000 = "2000-02-29T00:00:00.000Z".
Proof. vm_compute. reflexivity. Qed.

Example toISOString_before_epoch : toISOString (-1) = "1969-12-31T23:59:59.999Z".
Proof. vm_compute. reflexivity. Qed.

Example toISOString_t0 : toISOString t0 = "2026-11-02T07:25:00.123Z".
Proof. vm_compute. reflexivity. Qed.

End Scenarios.
End Scenarios.

(** * Further properties of the request handlers *)

Module HandlerFacts.
Section HandlerFacts.
Import Server ServerFacts.
Context `{P : Platform}.

(** Case analysis on every test and outside call of a request handler, in
    program order. *)
Ltac handler_cases :=
  repeat (run; match goal with
    | |- context [missing_required ?c] => destruct (missing_required c) eqn:?
    | |- context [contract_of ?m ?o] => destruct (contract_of m o) eqn:?
    | |- context [truthy ?v] => destruct (truthy v) eqn:?
    | |- context [contract_submitTransaction ?c ?f ?a ?e] =>
        destruct (contract_submitTransaction c f a e) as [[?|?] ?] eqn:?
    | |- context [contract_evaluateTransaction ?c ?f ?a ?e] =>
        destruct (contract_evaluateTransaction c f a e) as [[?|?] ?] eqn:?
    | |- context [bool_decide (Buffer_toString ?b = ?s)] =>
        destruct (bool_decide (Buffer_toString b = s)) eqn:?
    | |- context [JSON_parse ?t] => destruct (JSON_parse t) as [?|[]] eqn:?
    end); run.

(** X1: the POST handler never throws: whatever [req.body] is, it answers
    with 200, 400 or 500.  For a parsed object body the status is 400 exactly
    when a required field is falsy, and it is not 500 for an organisation
    without a contract handle.  When no body was parsed ([req.body] is
    [undefined]) the answer is the 500 failure response and the process
    memory and the outside world are as before. *)
Theorem post_always_answers org (body : option jsobj) (w : Process server) :
  ∃ resp,
    (post_request org body w).1 = Ok resp
    ∧ (status resp = 200 ∨ status resp = 400 ∨ status resp = 500)%Z
    ∧ (∀ claimLog, body = Some claimLog →
         (status resp = 400%Z ↔ missing_required claimLog = true)
         ∧ (contract_of (mem w) org = None → status resp ≠ 500%Z))
    ∧ (body = None →
         resp = Response 500
                  (JObj {[ "error" := JStr "Failed to add claim log";
                           "details" :=
                             JStr "Cannot read properties of undefined (reading 'claimId')" ]})
         ∧ mem (post_request org body w).2 = mem w
         ∧ ext (post_request org body w).2 = ext w).
Proof.
  destruct w as [m e c r o]. cbn [mem ext]. destruct body as [claimLog|]; cbn [post_request].
  - unfold post_claims_logs, submitTransaction, or_now, read_length.
    handler_cases; eexists; (split; [reflexivity|]); cbn [status];
      (split; [tauto|]); (split; [|intros [=]]);
      intros ? [= <-]; split; try (intros; discriminate); try tauto;
      split; intros; (discriminate || congruence).
  - run. eexists. split; [reflexivity|]. cbn [status].
    split; [tauto|]. split; [intros ? [=]|]. done.
Qed.

(** X2: the GET handler always answers, with 200 or 500, and with 200 whenever
    the organisation has no contract handle. *)
Theorem get_always_answers org (w : Process server) :
  ∃ resp,
    (get_claims_logs org w).1 = Ok resp
    ∧ (status resp = 200 ∨ status resp = 500)%Z
    ∧ (contract_of (mem w) org = None → status resp = 200%Z).
Proof.
  destruct w as [m e c r o]. cbn [mem].
  unfold get_claims_logs, evaluateTransaction, read_length.
  handler_cases; eexists; (split; [reflexivity|]); cbn [status];
    split; try tauto; intros; (reflexivity || discriminate).
Qed.


(** X4: with a contract handle, a ledger read that throws, an answer that does
    not parse and the answer [null] each give the 500 response carrying the
    cause; the fallback list is not served instead. *)
Theorem live_get_failure_is_500 org c (w : Process server) cause :
  contract_of (mem w) org = Some c →
  (∃ e', contract_evaluateTransaction c "QueryAllClaimLogs" [] (ext w) = (inl cause, e'))
  ∨ (∃ bytes e',
       contract_evaluateTransaction c "QueryAllClaimLogs" [] (ext w) = (inr bytes, e')
       ∧ JSON_parse (Buffer_toString bytes) = inl cause)
  ∨ (∃ bytes e',
       contract_evaluateTransaction c "QueryAllClaimLogs" [] (ext w) = (inr bytes, e')
       ∧ JSON_parse (Buffer_toString bytes) = inr JNull
       ∧ cause = Error "Cannot read properties of null (reading 'length')") →
  (get_claims_logs org w).1 =
    Ok (Response 500
          (JObj {[ "error" := JStr "Failed to fetch claims logs";
                   "details" := JStr (message cause) ]}))
  ∧ mem (get_claims_logs org w).2 = mem w.
Proof.
  intros Hc Hfail. destruct w as [m e k r o]. cbn [mem ext out] in *.
  unfold get_claims_logs, evaluateTransaction, read_length. run.
  rewrite Hc. run. rewrite Hc. run.
  destruct Hfail as [(e' & ->)|[(bytes & e' & -> & Hp)|(bytes & e' & -> & Hp & ->)]];
    run; rewrite ?Hp; run; done.
Qed.

(** X5: with a contract handle, a ledger write that throws gives the 500
    response carrying the cause, and the claim log is not kept in the
    fallback list. *)
Theorem live_post_failure_is_500 org (claimLog : jsobj) c (w : Process server) cause e' :
  missing_required claimLog = false →
  contract_of (mem w) org = Some c →
  contract_submitTransaction c "AddClaimLog"
    [prop claimLog "claimId"; prop claimLog "farmerName"; prop claimLog "cropType";
     (if truthy (prop claimLog "timestamp") then prop claimLog "timestamp"
      else JStr (toISOString (clock w (reads w))));
     prop claimLog "status"] (ext w) = (inl cause, e') →
  (post_claims_logs org claimLog w).1 =
    Ok (Response 500
          (JObj {[ "error" := JStr "Failed to add claim log";
                   "details" := JStr (message cause) ]}))
  ∧ mem (post_claims_logs org claimLog w).2 = mem w.
Proof.
  intros Hvalid Hc Hsubmit. destruct w as [m e k r o]. cbn [mem ext clock reads] in *.
  unfold post_claims_logs, submitTransaction, or_now. run.
  rewrite Hvalid, Hc.
  destruct (truthy (prop claimLog "timestamp")); run; rewrite Hc, Hsubmit; run; done.
Qed.

(** X6: no request handler changes the connection map. *)
Theorem handlers_keep_connections org (claimLog : jsobj) (w : Process server) :
  orgConnections (mem (get_claims_logs org w).2) = orgConnections (mem w)
  ∧ orgConnections (mem (post_claims_logs org claimLog w).2) = orgConnections (mem w)
  ∧ orgConnections (mem (health w).2) = orgConnections (mem w).
Proof.
  destruct w as [m e c r o]. cbn [mem]. split_and!.
  - unfold get_claims_logs, evaluateTransaction, read_length. handler_cases; reflexivity.
  - unfold post_claims_logs, submitTransaction, or_now. handler_cases; reflexivity.
  - reflexivity.
Qed.

(** X7: the fallback list only grows, and only by a valid claim log posted for an
    organisation without a contract handle: GET and the health check leave it
    as it is, POST leaves it as it is or appends the record it answers
    with. *)
Theorem fallback_list_is_append_only org (claimLog : jsobj) (w : Process server) :
  claimsLogs (mem (get_claims_logs org w).2) = claimsLogs (mem w)
  ∧ claimsLogs (mem (health w).2) = claimsLogs (mem w)
  ∧ (claimsLogs (mem (post_claims_logs org claimLog w).2) = claimsLogs (mem w)
     ∨ ∃ record,
         claimsLogs (mem (post_claims_logs org claimLog w).2) = claimsLogs (mem w) ++ [record]
         ∧ (post_claims_logs org claimLog w).1 = Ok (Response 200 (JObj record))
         ∧ missing_required claimLog = false
         ∧ contract_of (mem w) org = None).
Proof.
  destruct w as [m e c r o]. cbn [mem]. split_and!.
  - unfold get_claims_logs, evaluateTransaction, read_length. handler_cases; reflexivity.
  - reflexivity.
  - unfold post_claims_logs, submitTransaction, or_now.
    handler_cases; cbn [claimsLogs]; first [by left | right; eexists; done].
Qed.

(** The whole effect of a valid POST served from the fallback list. *)
Lemma post_fallback_run org (claimLog : jsobj) (w : Process server) :
  missing_required claimLog = false →
  contract_of (mem w) org = None →
  ∃ record n evs,
    post_claims_logs org claimLog w =
      (Ok (Response 200 (JObj record)),
       mkWorld (mkServer (orgConnections (mem w)) (claimsLogs (mem w) ++ [record]))
         (ext w) (clock w) n (out w ++ evs))
    ∧ ledger_calls evs = []
    ∧ n = (S (reads w)
           + (if truthy (prop claimLog "timestamp") then 0 else 1)
           + (if truthy (prop claimLog "createdAt") then 0 else 1))%nat
    ∧ record !! "id" = Some (JStr (Number_toString (clock w (reads w))))
    ∧ record !! "timestamp" =
        Some (if truthy (prop claimLog "timestamp") then prop claimLog "timestamp"
              else JStr (toISOString (clock w (S (reads w))))).
Proof.
  intros Hvalid Hc. destruct w as [m e c r o]; cbn [mem ext clock reads out] in *.
  unfold post_claims_logs, or_now. run.
  rewrite Hvalid, Hc.
  assert (Hts : ∀ v (o : jsobj), prop (<["id" := v]> o) "timestamp" = prop o "timestamp").
  { intros. unfold prop. by rewrite lookup_insert_ne. }
  assert (Hca : ∀ v v' (o : jsobj),
             prop (<["timestamp" := v]> (<["id" := v']> o)) "createdAt" = prop o "createdAt").
  { intros. unfold prop. by rewrite !lookup_insert_ne. }
  rewrite Hts.
  destruct (truthy (prop claimLog "timestamp")); run; rewrite Hca;
    destruct (truthy (prop claimLog "createdAt")); run;
    eexists _, _, [_; _; _]; rewrite <- !app_assoc; (split; [reflexivity|]);
    (split; [reflexivity|]); (split; [simpl; lia|]);
    (split;
     [rewrite lookup_insert_ne, lookup_insert_ne, lookup_insert_eq by done
     |rewrite lookup_insert_ne, lookup_insert_eq by done]); reflexivity.
Qed.

(** X8: a valid POST served from the fallback list never touches the ledger: no
    ledger operation is invoked and the outside world is as before.  The
    stored [timestamp] is the caller's when that is truthy and the server's
    current time otherwise. *)
Theorem fallback_post_stays_local org (claimLog : jsobj) (w : Process server) :
  missing_required claimLog = false →
  contract_of (mem w) org = None →
  ∃ record,
    (post_claims_logs org claimLog w).1 = Ok (Response 200 (JObj record))
    ∧ ext (post_claims_logs org claimLog w).2 = ext w
    ∧ ledger_calls (out (post_claims_logs org claimLog w).2) = ledger_calls (out w)
    ∧ record !! "timestamp" =
        Some (if truthy (prop claimLog "timestamp") then prop claimLog "timestamp"
              else JStr (toISOString (clock w (S (reads w))))).
Proof.
  intros Hvalid Hc.
  destruct (post_fallback_run org claimLog w Hvalid Hc)
    as (record & n & evs & -> & Hevs & _ & _ & Hts).
  exists record. cbn [fst snd ext out]. split_and!; try done.
  by rewrite ledger_calls_app, Hevs, app_nil_r.
Qed.

(** X9: two valid claim logs posted one after the other for organisations
    without a contract handle are both kept, in posting order, and any
    organisation without a handle reads both back. *)
Theorem fallback_posts_accumulate org1 org2 org3 (log1 log2 : jsobj) (w : Process server) :
  missing_required log1 = false →
  missing_required log2 = false →
  contract_of (mem w) org1 = None →
  contract_of (mem w) org2 = None →
  contract_of (mem w) org3 = None →
  ∃ record1 w1 record2 w2,
    post_claims_logs org1 log1 w = (Ok (Response 200 (JObj record1)), w1)
    ∧ post_claims_logs org2 log2 w1 = (Ok (Response 200 (JObj record2)), w2)
    ∧ (get_claims_logs org3 w2).1 =
        Ok (Response 200 (JArr (JObj <$> (claimsLogs (mem w) ++ [record1; record2])))).
Proof.
  intros Hv1 Hv2 Hc1 Hc2 Hc3.
  destruct (post_fallback_run org1 log1 w Hv1 Hc1) as (r1 & n1 & evs1 & Hp1 & _).
  eexists r1, _. 
  assert (Hc2' : contract_of (mem (post_claims_logs org1 log1 w).2) org2 = None)
    by (rewrite Hp1; exact Hc2).
  destruct (post_fallback_run org2 log2 _ Hv2 Hc2') as (r2 & n2 & evs2 & Hp2 & _).
  rewrite Hp1 in Hp2. cbn [snd mem ext clock out orgConnections claimsLogs] in Hp2.
  eexists r2, _. split; [exact Hp1|]. split; [exact Hp2|].
  destruct (get_fallback org3
              (mkWorld (mkServer (orgConnections (mem w))
                          ((claimsLogs (mem w) ++ [r1]) ++ [r2]))
                 (ext w) (clock w) n2 ((out w ++ evs1) ++ evs2))) as (Hg & _).
  { exact Hc3. }
  rewrite Hg. cbn [mem claimsLogs]. by rewrite <- app_assoc.
Qed.

(** X10: the [id] of a fallback record is the clock reading and nothing else: two
    claim logs posted at the same millisecond get the same [id], whatever
    they hold. *)
Theorem fallback_ids_can_collide org1 org2 (log1 log2 : jsobj) (w1 w2 : Process server) :
  missing_required log1 = false →
  missing_required log2 = false →
  contract_of (mem w1) org1 = None →
  contract_of (mem w2) org2 = None →
  clock w1 (reads w1) = clock w2 (reads w2) →
  ∃ record1 record2,
    (post_claims_logs org1 log1 w1).1 = Ok (Response 200 (JObj record1))
    ∧ (post_claims_logs org2 log2 w2).1 = Ok (Response 200 (JObj record2))
    ∧ record1 !! "id" = record2 !! "id"
    ∧ is_Some (record1 !! "id").
Proof.
  intros Hv1 Hv2 Hc1 Hc2 Hclock.
  destruct (post_fallback_run org1 log1 w1 Hv1 Hc1) as (r1 & n1 & evs1 & -> & _ & _ & Hid1 & _).
  destruct (post_fallback_run org2 log2 w2 Hv2 Hc2) as (r2 & n2 & evs2 & -> & _ & _ & Hid2 & _).
  exists r1, r2. rewrite Hid1, Hid2, Hclock. eauto.
Qed.

End HandlerFacts.
End HandlerFacts.

(** * Further properties of boot and shutdown *)

Module LifecycleFacts.
Section LifecycleFacts.
Import Server ServerFacts.
Context `{P : Platform}.

(** Case analysis on the outcome of every outside call of a connection
    attempt. *)
Ltac attempt_cases :=
  repeat (run; match goal with
    | |- context [new_Gateway ?e] => destruct (new_Gateway e) as [? ?]
    | |- context [fs_readFileSync ?p ?e] => destruct (fs_readFileSync p e) as [?|?]
    | |- context [JSON_parse ?t] => destruct (JSON_parse t) as [?|?]
    | |- context [Wallets_newFileSystemWallet ?p ?e] =>
        destruct (Wallets_newFileSystemWallet p e) as [[?|?] ?]
    | |- context [wallet_get ?wl ?l ?e] => destruct (wallet_get wl l e) as [[?|[?|]] ?]
    | |- context [gateway_connect ?g ?c ?o ?e] =>
        destruct (gateway_connect g c o e) as [[?|[]] ?]
    | |- context [gateway_getNetwork ?g ?c ?e] =>
        destruct (gateway_getNetwork g c e) as [[?|?] ?]
    | |- context [network_getContract ?n ?c ?e] =>
        destruct (network_getContract n c e) as [[?|?] ?]
    end); run.

(** A connection attempt prints exactly one line and leaves the process
    memory alone: the success line when its steps returned, the failure line
    with the message of what they threw otherwise. *)
Lemma attempt_run org (w : Process server) :
  ∃ c e' line,
    initializeFabricForOrg org w
      = (Ok c, mkWorld (mem w) e' (clock w) (reads w) (out w ++ [line]))
    ∧ ((is_Some (contract c) ∧ is_Some (gateway c)
        ∧ line = ConsoleLog [LStr ("✅ Connected to Fabric for " +:+ org +:+ "!")])
       ∨ (c = Conn None None
          ∧ ∃ err, (connect_steps org w).1 = Throw err
                   ∧ line = ConsoleError
                              [LStr ("❌ Failed to connect to Fabric for " +:+ org +:+ ":");
                               LStr (message err)])).
Proof.
  destruct w as [m e c r o]. unfold initializeFabricForOrg, connect_steps. cbn [mem clock reads out].
  attempt_cases; eexists _, _, _; (split; [reflexivity|]);
    first [left; split_and!; eauto; reflexivity | right; split; eauto].
Qed.

(** The whole effect of [initializeFabric]: the two attempts in turn, each
    outcome stored under its organisation, then the warning when no entry of
    the map has a contract. *)
Lemma boot_run (w : Process server) :
  ∃ c1 w1 c2 w2,
    initializeFabricForOrg ORG1_NAME w = (Ok c1, w1)
    ∧ initializeFabricForOrg ORG2_NAME (set_connection ORG1_NAME c1 w1).2 = (Ok c2, w2)
    ∧ ∃ line1 line2,
        out w2 = out w ++ [line1; line2]
        ∧ (is_Some (contract c1) ∨ c1 = Conn None None)
        ∧ (is_Some (contract c2) ∨ c2 = Conn None None)
        ∧ let s := mkServer (<[ORG2_NAME := c2]> (<[ORG1_NAME := c1]> (orgConnections (mem w))))
                     (claimsLogs (mem w)) in
          initializeFabric w =
            (Ok tt,
             mkWorld s (ext w2) (clock w) (reads w)
               (out w2 ++
                  if hasFabricConnection s then []
                  else [ConsoleLog
                          [LStr "⚠️ Falling back to in-memory storage due to Fabric connection failure"]])).
Proof.
  destruct w as [m e k r o].
  destruct (attempt_run ORG1_NAME (mkWorld m e k r o)) as (c1 & e1 & line1 & H1 & Hc1).
  cbn [mem ext clock reads out] in *.
  set (w := mkWorld m e k r o) in *.
  destruct (attempt_run ORG2_NAME
              (mkWorld (mkServer (<[ORG1_NAME := c1]> (orgConnections (mem w)))
                          (claimsLogs (mem w)))
                 e1 (clock w) (reads w) (out w ++ [line1])))
    as (c2 & e2 & line2 & H2 & Hc2).
  cbn [mem ext clock reads out] in H2.
  eexists c1, _, c2, _. split; [exact H1|].
  split; [subst w; unfold set_connection; run; exact H2|].
  exists line1, line2. cbn [out]. split; [by rewrite <- app_assoc|].
  split; [destruct Hc1 as [(Hs & _)|(Hn & _)]; [left; exact Hs|right; exact Hn]|].
  split; [destruct Hc2 as [(Hs & _)|(Hn & _)]; [left; exact Hs|right; exact Hn]|].
  cbn zeta. subst w. cbn [mem ext clock reads out] in *.
  unfold initializeFabric. run. rewrite H1. run.
  unfold set_connection. run. cbn [orgConnections claimsLogs]. rewrite H2. run.
  cbn [orgConnections claimsLogs].
  destruct (hasFabricConnection _); run; by rewrite ?app_nil_r.
Qed.

Lemma hasFabricConnection_true (s : server) :
  hasFabricConnection s = true ↔
  ∃ org c, orgConnections s !! org = Some c ∧ is_Some (contract c).
Proof.
  unfold hasFabricConnection. rewrite existsb_exists. split.
  - intros ([org c] & Hin & Hc). exists org, c.
    apply list_elem_of_In, elem_of_map_to_list in Hin.
    split; [exact Hin|]. by apply bool_decide_eq_true_1 in Hc.
  - intros (org & c & Hl & Hc). exists (org, c). split.
    + by apply list_elem_of_In, elem_of_map_to_list.
    + by apply bool_decide_eq_true_2.
Qed.

(** X11: booted from the empty connection map, the server prints the fallback
    warning exactly when both attempts failed: the trace of the boot is the
    line of each attempt, followed by the warning when neither stored entry
    has a contract and by nothing otherwise. *)
Theorem boot_warns_when_all_failed (w : Process server) :
  orgConnections (mem w) = ∅ →
  ∃ c1 c2 line1 line2,
    orgConnections (mem (initializeFabric w).2) !! ORG1_NAME = Some c1
    ∧ orgConnections (mem (initializeFabric w).2) !! ORG2_NAME = Some c2
    ∧ out (initializeFabric w).2 =
        out w ++ [line1; line2] ++
          (if bool_decide (contract c1 = None ∧ contract c2 = None)
           then [ConsoleLog
                   [LStr "⚠️ Falling back to in-memory storage due to Fabric connection failure"]]
           else []).
Proof.
  intros Hempty.
  destruct (boot_run w) as (c1 & w1 & c2 & w2 & _ & _ & line1 & line2 & Hout & _ & _ & Hrun).
  cbn zeta in Hrun. rewrite Hrun. clear Hrun. cbn [snd mem out orgConnections].
  exists c1, c2, line1, line2.
  split; [by rewrite lookup_insert_ne, lookup_insert_eq|].
  split; [by rewrite lookup_insert_eq|].
  rewrite Hout, <- app_assoc. f_equal. f_equal.
  rewrite Hempty. case_bool_decide as Hb.
  - destruct Hb as [Hn1 Hn2].
    destruct (hasFabricConnection _) eqn:Hhas; [exfalso|reflexivity].
    apply hasFabricConnection_true in Hhas as (org & c & Hl & Hc).
    cbn [orgConnections] in Hl.
    rewrite lookup_insert in Hl. case_decide; simplify_eq.
    { rewrite Hn2 in Hc. by destruct Hc. }
    rewrite lookup_insert in Hl. case_decide; simplify_eq.
    rewrite Hn1 in Hc. by destruct Hc.
  - destruct (hasFabricConnection _) eqn:Hhas; [reflexivity|exfalso].
    apply Hb. split.
    + destruct (contract c1) eqn:Hk; [|done]. exfalso.
      assert (hasFabricConnection
                (mkServer (<[ORG2_NAME:=c2]> (<[ORG1_NAME:=c1]> ∅)) (claimsLogs (mem w)))
              = true) as Ht; [|congruence].
      apply hasFabricConnection_true. exists ORG1_NAME, c1. cbn [orgConnections].
      rewrite lookup_insert_ne, lookup_insert_eq by done. rewrite Hk. eauto.
    + destruct (contract c2) eqn:Hk; [|done]. exfalso.
      assert (hasFabricConnection
                (mkServer (<[ORG2_NAME:=c2]> (<[ORG1_NAME:=c1]> ∅)) (claimsLogs (mem w)))
              = true) as Ht; [|congruence].
      apply hasFabricConnection_true. exists ORG2_NAME, c2. cbn [orgConnections].
      rewrite lookup_insert_eq. rewrite Hk. eauto.
Qed.

(** X12: after boot the health check reports, for each organisation, whether its
    own connection attempt gave a handle; each attempt gave a whole handle or
    none. *)
Theorem health_after_boot (w : Process server) :
  ∃ c1 w1 c2 b,
    initializeFabricForOrg ORG1_NAME w = (Ok c1, w1)
    ∧ (initializeFabricForOrg ORG2_NAME (set_connection ORG1_NAME c1 w1).2).1 = Ok c2
    ∧ (health (initializeFabric w).2).1 = Ok (Response 200 (JObj b))
    ∧ b !! "fabricConnectedOrg1" = Some (JBool (bool_decide (is_Some (contract c1))))
    ∧ b !! "fabricConnectedOrg2" = Some (JBool (bool_decide (is_Some (contract c2))))
    ∧ (is_Some (contract c1) ∨ c1 = Conn None None)
    ∧ (is_Some (contract c2) ∨ c2 = Conn None None).
Proof.
  destruct (boot_run w) as (c1 & w1 & c2 & w2 & H1 & H2 & line1 & line2 & _ & Hc1 & Hc2 & Hrun).
  cbn zeta in Hrun. exists c1, w1, c2. eexists.
  split; [exact H1|]. split; [by rewrite H2|].
  rewrite Hrun, health_run. cbn [fst snd mem clock reads].
  split; [reflexivity|].
  unfold contract_of. cbn [orgConnections].
  rewrite lookup_insert_ne, !lookup_insert_eq by done. cbn [mbind option_bind].
  split_and!; [| |exact Hc1|exact Hc2].
  - by rewrite lookup_insert_ne, lookup_insert_eq.
  - by rewrite lookup_insert_ne, lookup_insert_ne, lookup_insert_eq.
Qed.

(** X13: when a disconnect throws, the interrupt handler ends with that error:
    nothing is printed about it, a gateway that was still to be disconnected
    is left connected, and [process.exit] is not reached.  The events after
    the shutdown line are the disconnects invoked so far and nothing else. *)
Theorem sigint_stops_at_failed_disconnect (w : Process server) cause :
  (∃ g1 e', gateway_of (mem w) ORG1_NAME = Some g1
            ∧ gateway_disconnect g1 (ext w) = (inl cause, e'))
  ∨ (∃ e1 g2 e',
       (gateway_of (mem w) ORG1_NAME = None ∧ e1 = ext w
        ∨ ∃ g1, gateway_of (mem w) ORG1_NAME = Some g1
                ∧ gateway_disconnect g1 (ext w) = (inr tt, e1))
       ∧ gateway_of (mem w) ORG2_NAME = Some g2
       ∧ gateway_disconnect g2 e1 = (inl cause, e')) →
  (on_SIGINT w).1 = Throw cause
  ∧ ∃ calls,
      out (on_SIGINT w).2 =
        out w ++ ConsoleLog [LStr (LF +:+ "🛑 Shutting down server...")] :: calls
      ∧ Forall (λ ev, ∃ g, ev = Disconnect g) calls
      ∧ (length calls ≤ 2)%nat.
Proof.
  intros Hfail. destruct w as [m e k r o]. cbn [mem ext out] in *.
  unfold on_SIGINT. run.
  destruct Hfail as [(g1 & e' & Hg1 & Hd)
                    |(e1 & g2 & e' & [[Hg1 ->]|(g1 & Hg1 & Hd1)] & Hg2 & Hd2)];
    rewrite Hg1; run.
  - rewrite Hd. run. split; [reflexivity|]. exists [Disconnect g1].
    rewrite <- app_assoc. split; [reflexivity|]. split; [|simpl; lia].
    repeat constructor. eauto.
  - rewrite Hg2. run. rewrite Hd2. run. split; [reflexivity|]. exists [Disconnect g2].
    rewrite <- app_assoc. split; [reflexivity|]. split; [|simpl; lia].
    repeat constructor. eauto.
  - rewrite Hd1. run. rewrite Hg2. run. rewrite Hd2. run. split; [reflexivity|].
    exists [Disconnect g1; Disconnect g2].
    rewrite <- !app_assoc. split; [reflexivity|]. split; [|simpl; lia].
    repeat constructor; eauto.
Qed.

Lemma split_on_no_separator (s : string) :
  no_separator s = true → split_on "/" s = [s].
Proof.
  induction s as [|c s IH]; [reflexivity|]. cbn [no_separator split_on].
  intros [Hc Hs]%andb_prop. apply negb_true_iff in Hc. rewrite Hc, (IH Hs). reflexivity.
Qed.

(** A plain segment is appended as it is, by [path.join] and by
    [path.resolve]. *)
Lemma path_add_plain (p : path) (s : string) :
  plain_segment s = true →
  path_add p s = p ++ [s] ∧ is_absolute s = false.
Proof.
  unfold plain_segment. rewrite !andb_true_iff, !negb_true_iff.
  intros [[[Hsep H0] H1] H2]. split.
  - unfold path_add. rewrite (split_on_no_separator s Hsep). cbn [fold_left].
    unfold path_step. by rewrite H0, H1, H2.
  - destruct s as [|c s]; [reflexivity|]. cbn [no_separator] in Hsep.
    apply andb_prop in Hsep as [Hc _]. by apply negb_true_iff in Hc.
Qed.

Lemma no_separator_app (a b : string) :
  no_separator (a +:+ b) = no_separator a && no_separator b.
Proof.
  induction a as [|c a IH]; [reflexivity|].
  change (String c a +:+ b) with (String c (a +:+ b)). cbn [no_separator].
  by rewrite IH, andb_assoc.
Qed.

Lemma no_separator_split_dot_first (s : string) :
  no_separator s = true → no_separator (split_dot_first s) = true.
Proof.
  induction s as [|c s IH]; [reflexivity|]. cbn [no_separator split_dot_first].
  intros [Hc Hs]%andb_prop. destruct (bool_decide (c = "."%char)); [reflexivity|].
  cbn [no_separator]. by rewrite Hc, (IH Hs).
Qed.

(** X14: for an organisation name that is one path segment (no separator,
    not empty, neither [.] nor [..]), the connection profile lies under the
    parent of the script directory, in the directory of the organisation, and
    is named after the part of the name before its first dot: the label that
    precedes the dot, or the whole name when it has no dot. *)
Theorem ccpPath_layout (orgName : string) :
  plain_segment orgName = true →
  ccpPath_of orgName =
    removelast __dirname
    ++ ["fabric-samples"; "test-network"; "organizations"; "peerOrganizations";
        orgName; "connection-" +:+ split_dot_first orgName +:+ ".json"]
  ∧ (∀ label rest,
       orgName = label +:+ "." +:+ rest →
       (∀ c, c ∈ String.list_ascii_of_string label → c ≠ "."%char) →
       split_dot_first orgName = label)
  ∧ ((∀ c, c ∈ String.list_ascii_of_string orgName → c ≠ "."%char) →
     split_dot_first orgName = orgName).
Proof.
  intros Hplain. split_and!.
  - assert (Hfile : plain_segment ("connection-" +:+ split_dot_first orgName +:+ ".json")
                    = true).
    { unfold plain_segment. rewrite !andb_true_iff, !negb_true_iff. split_and!; try done.
      rewrite !no_separator_app, no_separator_split_dot_first; [reflexivity|].
      unfold plain_segment in Hplain. rewrite !andb_true_iff in Hplain. tauto. }
    assert (Hstep : ∀ (p : path) s, plain_segment s = true →
              path_add (if is_absolute s then [] else p) s = p ++ [s]).
    { intros p s Hs. destruct (path_add_plain p s Hs) as [Ha ->]. exact Ha. }
    assert (Hup : ∀ p : path,
              path_add (if is_absolute ".." then [] else p) ".." = removelast p)
      by reflexivity.
    unfold ccpPath_of, path_resolve. cbn [fold_left]. cbn beta.
    rewrite Hup, !Hstep by (reflexivity || assumption).
    by rewrite <- !app_assoc.
  - intros label rest -> Hdot. clear Hplain.
    induction label as [|c label IH]; [reflexivity|].
    change (String c label +:+ "." +:+ rest) with (String c (label +:+ "." +:+ rest)).
    cbn [split_dot_first].
    rewrite bool_decide_eq_false_2.
    + f_equal. apply IH. intros c' Hc'. apply Hdot. cbn. by right.
    + apply Hdot. cbn. by left.
  - clear Hplain. induction orgName as [|c s IH]; [reflexivity|]. intros Hdot.
    cbn [split_dot_first]. rewrite bool_decide_eq_false_2.
    + f_equal. apply IH. intros c' Hc'. apply Hdot. cbn. by right.
    + apply Hdot. cbn. by left.
Qed.

End LifecycleFacts.
End LifecycleFacts.

(** * Further properties of the wallet set-up script *)

Module ProvisionFacts.
Section ProvisionFacts.
Import SetupWallets SetupWalletsFacts.
Context `{P : Platform}.

(** X15: whatever the outside world does, [createWallet] returns normally and
    writes at most one identity record, under the label [admin], of type
    X.509, with the member-service id [Org1MSP] for [org1.example.com] and
    [Org2MSP] for every other name. *)
Theorem createWallet_writes_at_most_one_identity org (w : Process unit) :
  (createWallet org w).1 = Ok tt
  ∧ ∃ evs,
      out (createWallet org w).2 = out w ++ evs
      ∧ (wallet_puts evs = []
         ∨ ∃ wl i,
             wallet_puts evs = [WalletPut wl "admin" i]
             ∧ identity_type i = "X.509"
             ∧ mspId i = (if bool_decide (org = "org1.example.com")
                          then "Org1MSP" else "Org2MSP")).
Proof.
  destruct w as [m e c r o]. unfold createWallet, createWallet_steps, join_keyFile.
  cbn [out]. run.
  destruct (fs_readFileSync _ e) as [?|cert]; run.
  { split; [reflexivity|]. eexists [_; _]. rewrite <- app_assoc. split; [reflexivity|]. by left. }
  destruct (fs_readdirSync _ e) as [?|[|keyFile rest]]; cbn [head]; run.
  { split; [reflexivity|]. eexists [_; _]. rewrite <- app_assoc. split; [reflexivity|]. by left. }
  { split; [reflexivity|]. eexists [_; _]. rewrite <- app_assoc. split; [reflexivity|]. by left. }
  destruct (fs_readFileSync _ e) as [?|key]; run.
  { split; [reflexivity|]. eexists [_; _]. rewrite <- app_assoc. split; [reflexivity|]. by left. }
  destruct (Wallets_newFileSystemWallet _ e) as [[?|wl] e1]; run.
  { split; [reflexivity|]. eexists [_; _]. rewrite <- app_assoc. split; [reflexivity|]. by left. }
  destruct (wallet_put wl _ _ e1) as [[?|[]] e2]; run;
    (split; [reflexivity|]); eexists [_; _; _]; rewrite <- !app_assoc;
    (split; [reflexivity|]); right; eexists _, _; done.
Qed.

(** X16: when the wallet directory exists and removing it throws, [main] ends
    with that error before any organisation is provisioned. *)
Theorem main_stops_when_cleanup_fails (w : Process unit) cause e' :
  fs_existsSync (path_join __dirname ["wallet"]) (ext w) = true →
  fs_rmSync (path_join __dirname ["wallet"]) (ext w) = (inl cause, e') →
  main w =
    (Throw cause,
     mkWorld (mem w) e' (clock w) (reads w)
       (out w ++ [ConsoleLog [LStr "Removing old wallets..."]])).
Proof.
  intros Hex Hrm. destruct w as [m e c r o]. cbn [mem ext clock reads out] in *.
  unfold main. run. rewrite Hex. run. rewrite Hrm. run. reflexivity.
Qed.

(** X17: when the wallet directory is removed, or was not there, [main] returns
    normally: it provisions organisation 1, then organisation 2 in the state
    the first left, whatever the first did. *)
Theorem main_provisions_both (w : Process unit) e' :
  (fs_existsSync (path_join __dirname ["wallet"]) (ext w) = true
   ∧ fs_rmSync (path_join __dirname ["wallet"]) (ext w) = (inr tt, e'))
  ∨ (fs_existsSync (path_join __dirname ["wallet"]) (ext w) = false ∧ e' = ext w) →
  let w0 :=
    if fs_existsSync (path_join __dirname ["wallet"]) (ext w)
    then mkWorld (mem w) e' (clock w) (reads w)
           (out w ++ [ConsoleLog [LStr "Removing old wallets..."]])
    else w in
  (main w).1 = Ok tt
  ∧ main w = createWallet "org2.example.com" (createWallet "org1.example.com" w0).2.
Proof.
  intros Hclean w0.
  assert (Hmain : main w
                  = createWallet "org2.example.com" (createWallet "org1.example.com" w0).2).
  { subst w0. destruct w as [m e c r o]. cbn [mem ext clock reads out] in *.
    unfold main. run.
    destruct Hclean as [[Hex Hrm]|[Hex ->]]; rewrite Hex; run; rewrite ?Hrm; run.
    - pose proof (createWallet_returns "org1.example.com"
                    (mkWorld m e' c r (o ++ [ConsoleLog [LStr "Removing old wallets..."]]))) as Hr.
      destruct (createWallet "org1.example.com" _) as [[[]|?|?] w1]; simpl in Hr; simplify_eq.
      reflexivity.
    - pose proof (createWallet_returns "org1.example.com" (mkWorld m e c r o)) as Hr.
      destruct (createWallet "org1.example.com" _) as [[[]|?|?] w1]; simpl in Hr; simplify_eq.
      reflexivity. }
  split; [|exact Hmain]. rewrite Hmain. apply createWallet_returns.
Qed.

End ProvisionFacts.
End ProvisionFacts.

(** * Further scenarios on the simulated deployments *)

Module MoreScenarios.
Section MoreScenarios.
Import Server SetupWallets Sim HandlerFacts LifecycleFacts ProvisionFacts.
#[local] Existing Instance platform.


(** The three ways a ledger read fails: the peers do not answer, the answer
    is not JSON, the answer is [null]. *)
Lemma live_get_failure_scenario :
  (get_claims_logs (P := failing) ORG1_NAME (live_world [] [])).1
    = Ok (Response 500
            (JObj {[ "error" := JStr "Failed to fetch claims logs";
                     "details" := JStr "No valid responses from any peers" ]}))
  ∧ (get_claims_logs ORG1_NAME (querying_world (String.list_byte_of_string "oops"))).1
    = Ok (Response 500
            (JObj {[ "error" := JStr "Failed to fetch claims logs";
                     "details" := JStr "Unexpected token in JSON" ]}))
  ∧ (get_claims_logs ORG1_NAME (querying_world (String.list_byte_of_string "null"))).1
    = Ok (Response 500
            (JObj {[ "error" := JStr "Failed to fetch claims logs";
                     "details" := JStr "Cannot read properties of null (reading 'length')" ]})).
Proof.
  split_and!.
  - apply (live_get_failure_is_500 (P := failing) ORG1_NAME 0%nat (live_world [] [])
             (Error "No valid responses from any peers") eq_refl).
    left. eexists. reflexivity.
  - apply (live_get_failure_is_500 (P := platform) ORG1_NAME 0%nat
             (querying_world (String.list_byte_of_string "oops"))
             (Error "Unexpected token in JSON") eq_refl).
    right. left. eexists _, _. split; reflexivity.
  - apply (live_get_failure_is_500 (P := platform) ORG1_NAME 0%nat
             (querying_world (String.list_byte_of_string "null"))
             (Error "Cannot read properties of null (reading 'length')") eq_refl).
    right. right. eexists _, _. split_and!; reflexivity.
Defined.

(** A POST with organisation 1 connected and peers that do not answer. *)
Lemma live_post_failure_scenario :
  (post_claims_logs (P := failing) ORG1_NAME asha (live_world [] [])).1
    = Ok (Response 500
            (JObj {[ "error" := JStr "Failed to add claim log";
                     "details" := JStr "No valid responses from any peers" ]}))
  ∧ claimsLogs (mem (post_claims_logs (P := failing) ORG1_NAME asha (live_world [] [])).2) = [].
Proof.
  destruct (live_post_failure_is_500 (P := failing) ORG1_NAME asha 0%nat (live_world [] [])
              (Error "No valid responses from any peers") _
              ltac:(vm_compute; reflexivity) eq_refl eq_refl) as (Hr & Hm).
  split; [exact Hr|]. by rewrite Hm.
Defined.

(** A claim log with its own [timestamp] posted in fallback mode. *)
Lemma fallback_post_local_scenario :
  ∃ record,
    (post_claims_logs ORG1_NAME ravi fallback_world).1 = Ok (Response 200 (JObj record))
    ∧ ext (post_claims_logs ORG1_NAME ravi fallback_world).2 = empty_ext
    ∧ ledger_calls (out (post_claims_logs ORG1_NAME ravi fallback_world).2) = []
    ∧ record !! "timestamp" = Some (JStr "2026-10-31T00:00:00.000Z").
Proof.
  destruct (fallback_post_stays_local (P := platform) ORG1_NAME ravi fallback_world
              ltac:(vm_compute; reflexivity) eq_refl) as (record & Hr & He & Hc & Hts).
  exists record. split_and!; [exact Hr|exact He|exact Hc|exact Hts].
Defined.

(** Two claim logs posted for two organisations and read back by a third. *)
Lemma accumulate_scenario :
  ∃ record1 w1 record2 w2,
    post_claims_logs ORG1_NAME asha fallback_world = (Ok (Response 200 (JObj record1)), w1)
    ∧ post_claims_logs ORG2_NAME ravi w1 = (Ok (Response 200 (JObj record2)), w2)
    ∧ (get_claims_logs "org3.example.com" w2).1
      = Ok (Response 200 (JArr [JObj record1; JObj record2])).
Proof.
  exact (fallback_posts_accumulate (P := platform) ORG1_NAME ORG2_NAME "org3.example.com"
           asha ravi fallback_world
           ltac:(vm_compute; reflexivity) ltac:(vm_compute; reflexivity)
           eq_refl eq_refl eq_refl).
Defined.

(** Two different claim logs posted at the same clock reading. *)
Lemma id_collision_scenario :
  asha ≠ ravi
  ∧ ∃ record1 record2,
      (post_claims_logs ORG1_NAME asha fallback_world).1 = Ok (Response 200 (JObj record1))
      ∧ (post_claims_logs ORG2_NAME ravi fallback_world).1 = Ok (Response 200 (JObj record2))
      ∧ record1 !! "id" = record2 !! "id"
      ∧ is_Some (record1 !! "id").
Proof.
  split.
  - intros H. apply (f_equal (λ o : jsobj, o !! "timestamp")) in H. vm_compute in H.
    discriminate H.
  - exact (fallback_ids_can_collide (P := platform) ORG1_NAME ORG2_NAME asha ravi
             fallback_world fallback_world
             ltac:(vm_compute; reflexivity) ltac:(vm_compute; reflexivity)
             eq_refl eq_refl eq_refl).
Defined.

(** Boot with nothing provisioned: both attempts fail and the warning is
    printed. *)
Lemma boot_warning_scenario :
  ∃ line1 line2,
    out (initializeFabric (boot_world empty_ext)).2 =
      [line1; line2;
       ConsoleLog
         [LStr "⚠️ Falling back to in-memory storage due to Fabric connection failure"]].
Proof.
  destruct (boot_warns_when_all_failed (P := platform) (boot_world empty_ext) eq_refl)
    as (c1 & c2 & line1 & line2 & H1 & H2 & Hout).
  exists line1, line2. rewrite Hout.
  assert (Hc1 : c1 = Conn None None).
  { assert (Some c1 = Some (Conn None None)) as [= ->]; [|done].
    rewrite <- H1. vm_compute. reflexivity. }
  assert (Hc2 : c2 = Conn None None).
  { assert (Some c2 = Some (Conn None None)) as [= ->]; [|done].
    rewrite <- H2. vm_compute. reflexivity. }
  subst c1 c2. reflexivity.
Defined.

(** An interrupt when the gateway of organisation 2 fails to disconnect. *)
Lemma sigint_second_failure_scenario :
  (on_SIGINT (live_world [] [1%nat])).1 = Throw (Error "disconnect failed")
  ∧ ∃ calls,
      out (on_SIGINT (live_world [] [1%nat])).2 =
        ConsoleLog [LStr (LF +:+ "🛑 Shutting down server...")] :: calls
      ∧ Forall (λ ev, ∃ g, ev = Disconnect g) calls
      ∧ (length calls ≤ 2)%nat.
Proof.
  apply (sigint_stops_at_failed_disconnect (P := platform) (live_world [] [1%nat])
           (Error "disconnect failed")).
  right. exists (sim_disconnect 0%nat (ext (live_world [] [1%nat]))).2, 1%nat. eexists.
  split_and!.
  - right. exists 0%nat. split; reflexivity.
  - reflexivity.
  - reflexivity.
Defined.

(** The connection profiles of organisation 1 and of a name without a
    dot. *)
Lemma ccpPath_scenario :
  ccpPath_of "org1.example.com" =
    ["home"; "fabric-dev"; "fabric-samples"; "test-network"; "organizations";
     "peerOrganizations"; "org1.example.com"; "connection-org1.json"]
  ∧ ccpPath_of "localorg" =
    ["home"; "fabric-dev"; "fabric-samples"; "test-network"; "organizations";
     "peerOrganizations"; "localorg"; "connection-localorg.json"].
Proof.
  destruct (ccpPath_layout (P := platform) "org1.example.com" eq_refl) as (H1 & Hl1 & _).
  destruct (ccpPath_layout (P := platform) "localorg" eq_refl) as (H2 & _ & Hl2).
  split.
  - rewrite H1, (Hl1 "org1" "example.com" eq_refl); [reflexivity|].
    intros c Hc. vm_compute in Hc.
    repeat (apply elem_of_cons in Hc as [->|Hc]; [discriminate|]).
    by apply elem_of_nil in Hc.
  - rewrite H2, Hl2; [reflexivity|].
    intros c Hc. vm_compute in Hc.
    repeat (apply elem_of_cons in Hc as [->|Hc]; [discriminate|]).
    by apply elem_of_nil in Hc.
Defined.

(** Arguments with separators, parent steps and an absolute argument. *)
Example path_resolve_normalises :
  path_resolve ["home"; "dev"] ["a/../b"; "."; "c//d"] = ["home"; "dev"; "b"; "c"; "d"]
  ∧ path_resolve ["home"; "dev"] ["x"; "/etc"; "y"] = ["etc"; "y"]
  ∧ path_join ["home"; "dev"] ["x"; "/etc"; "../.."] = ["home"; "dev"]
  ∧ path_resolve [] [".."; "a"] = ["a"].
Proof. split_and!; reflexivity. Qed.

(** A read-only disk with a wallet of an earlier run: [main] stops at the
    clean-up and the old identity stays. *)
Lemma cleanup_failure_scenario :
  (main (P := failing) (setup_world stale_wallet_ext)).1
    = Throw (Error "EROFS: read-only file system, rm")
  ∧ out (main (P := failing) (setup_world stale_wallet_ext)).2
    = [ConsoleLog [LStr "Removing old wallets..."]]
  ∧ ext (main (P := failing) (setup_world stale_wallet_ext)).2 = stale_wallet_ext.
Proof.
  rewrite (main_stops_when_cleanup_fails (P := failing) (setup_world stale_wallet_ext)
             (Error "EROFS: read-only file system, rm") stale_wallet_ext
             ltac:(vm_compute; reflexivity) eq_refl).
  split_and!; reflexivity.
Defined.

(** A wallet of an earlier run on a working disk: [main] removes it and
    writes the identity of organisation 1 afresh. *)
Lemma reprovision_scenario :
  (main (setup_world stale_wallet_ext)).1 = Ok tt
  ∧ store (ext (main (setup_world stale_wallet_ext)).2)
      !! walletPath_of "org1.example.com" ≫= (.!! "admin")
    = Some (Identity (Credentials "CERT" "KEY-A") "Org1MSP" "X.509").
Proof.
  destruct (main_provisions_both (P := platform) (setup_world stale_wallet_ext)
              (sim_rmSync (path_join __dirname ["wallet"]) stale_wallet_ext).2) as (Hok & _).
  { left. split; [vm_compute; reflexivity|reflexivity]. }
  split; [exact Hok|]. vm_compute. reflexivity.
Defined.

End MoreScenarios.
End MoreScenarios.
